(** * Documentation metadata checker: frontmatter extraction and validation

    A shallow embedding of [scripts/check-docs-metadata.js]
    ([extractFrontmatter] and [validateMetadata]) together with the
    properties of these two functions.

    JavaScript strings are sequences of UTF-16 code units; a code unit is
    modelled as an [N] and a string as a list of code units.  The fixed issue
    codes pushed onto [errors] and [warnings] are ASCII literals that never
    mix with file content; they are kept as [string]. *)

From Stdlib Require Import ZArith NArith List String Ascii Bool Lia DecimalString.
From stdpp Require Import gmap list.
Import ListNotations.

Local Open Scope Z_scope.

(** ** Strings *)

Definition char := N.
Abbreviation jsstring := (list char).

Definition ch (a : ascii) : char := N_of_ascii a.
Arguments ch : simpl never.

(** A string literal of the source, as a sequence of code units. *)
Definition js (s : string) : jsstring := map ch (list_ascii_of_string s).

(** ECMAScript [WhiteSpace] and [LineTerminator] code points: what
    [String.prototype.trim] strips and what [\s] matches. *)
Definition isLineTerminator (c : char) : bool :=
  ((c =? 10) || (c =? 13) || (c =? 8232) || (c =? 8233))%N.

Definition isWhiteSpace (c : char) : bool :=
  ((c =? 9) || (c =? 11) || (c =? 12) || (c =? 32) || (c =? 160)
   || (c =? 5760) || ((8192 <=? c) && (c <=? 8202))
   || (c =? 8239) || (c =? 8287) || (c =? 12288) || (c =? 65279))%N
  || isLineTerminator c.

(** [\d], [\w] and [.] (without the [s] flag). *)
Definition isDigit (c : char) : bool := ((48 <=? c) && (c <=? 57))%N.

Definition isWord (c : char) : bool :=
  (((97 <=? c) && (c <=? 122)) || ((65 <=? c) && (c <=? 90)) || (c =? 95))%N
  || isDigit c.

Definition isDot (c : char) : bool := negb (isLineTerminator c).

Fixpoint skipWhile (p : char -> bool) (s : jsstring) : jsstring :=
  match s with
  | c :: s' => if p c then skipWhile p s' else s
  | [] => []
  end.

Fixpoint takeWhile (p : char -> bool) (s : jsstring) : jsstring :=
  match s with
  | c :: s' => if p c then c :: takeWhile p s' else []
  | [] => []
  end.

Definition trimStart (s : jsstring) : jsstring := skipWhile isWhiteSpace s.
Definition trimEnd (s : jsstring) : jsstring := rev (skipWhile isWhiteSpace (rev s)).

(** [s.trim()] *)
Definition trim (s : jsstring) : jsstring := trimEnd (trimStart s).

(** [s.split(sep)] for a one-character separator: never the empty array. *)
Fixpoint split (sep : char) (s : jsstring) : list jsstring :=
  match s with
  | [] => [[]]
  | c :: s' =>
      if (c =? sep)%N then [] :: split sep s'
      else match split sep s' with
           | l :: ls => (c :: l) :: ls
           | [] => [[c]]
           end
  end.

(** [ls.join(sep)] *)
Fixpoint join (sep : jsstring) (ls : list jsstring) : jsstring :=
  match ls with
  | [] => []
  | [l] => l
  | l :: ls' => l ++ sep ++ join sep ls'
  end.

(** [s.includes(c)] for a one-character needle. *)
Definition includes (c : char) (s : jsstring) : bool := existsb (N.eqb c) s.

Definition NL : char := 10%N.

(** ** Regular expressions

    The patterns of the source are sequences of character classes under
    greedy quantifiers, literal characters and the two anchors.  They are
    embedded as backtracking matchers in continuation-passing style: a
    quantifier first tries to take one more character and, when the rest of
    the pattern then fails, gives it back. *)

Section Matcher.
Context {R : Type}.

Definition moreAllowed (hi : option nat) : bool :=
  match hi with Some O => false | _ => true end.

Definition oneLess (hi : option nat) : option nat :=
  match hi with Some n => Some (Nat.pred n) | None => None end.

(** [rep p lo hi s acc k]: the class [p] repeated between [lo] and [hi]
    times (no upper bound for [None]), greedily, on input [s]; [acc] holds
    the characters taken so far, last first; [k group rest] runs the
    rest of the pattern. *)
Fixpoint rep (p : char -> bool) (lo : nat) (hi : option nat)
    (s acc : jsstring) (k : jsstring -> jsstring -> option R) : option R :=
  let stop := match lo with O => k (rev acc) s | S _ => None end in
  match s with
  | c :: s' =>
      if p c && moreAllowed hi then
        match rep p (Nat.pred lo) (oneLess hi) s' (c :: acc) k with
        | Some r => Some r
        | None => stop
        end
      else stop
  | [] => stop
  end.

(** A literal character. *)
Definition lit (c : char) (s : jsstring) (k : jsstring -> option R) : option R :=
  match s with
  | c' :: s' => if (c' =? c)%N then k s' else None
  | [] => None
  end.

(** [$] without the [m] flag: end of input. *)
Definition eoi (s : jsstring) (r : R) : option R :=
  match s with [] => Some r | _ :: _ => None end.
End Matcher.

(** [line.match(re)] for the field pattern of the source: start of input,
    a captured [\w+], a colon, [\s*], a captured run of any characters but
    line terminators, end of input.  The result holds the two groups. *)
Definition fieldPattern (line : jsstring) : option (jsstring * jsstring) :=
  rep isWord 1 None line [] (fun g1 s1 =>
  lit (ch ":") s1 (fun s2 =>
  rep isWhiteSpace 0 None s2 [] (fun _ s3 =>
  rep isDot 0 None s3 [] (fun g2 s4 =>
  eoi s4 (g1, g2))))).

(** [/^\[\s*\]$/.test(v)] *)
Definition emptyArrayPattern (v : jsstring) : bool :=
  match lit (ch "[") v (fun s1 =>
        rep isWhiteSpace 0 None s1 [] (fun _ s2 =>
        lit (ch "]") s2 (fun s3 =>
        eoi s3 tt))) with
  | Some _ => true
  | None => false
  end.

(** [/^\d{4}-\d{2}-\d{2}$/.test(v)] *)
Definition datePattern (v : jsstring) : bool :=
  match rep isDigit 4 (Some 4%nat) v [] (fun _ s1 =>
        lit (ch "-") s1 (fun s2 =>
        rep isDigit 2 (Some 2%nat) s2 [] (fun _ s3 =>
        lit (ch "-") s3 (fun s4 =>
        rep isDigit 2 (Some 2%nat) s4 [] (fun _ s5 =>
        eoi s5 tt))))) with
  | Some _ => true
  | None => false
  end.

(** [v.replace(re, '')] with the global pattern for one single or double
    quote character: every quote character of [v] is removed. *)
Definition isQuote (c : char) : bool := ((c =? 39) || (c =? 34))%N.

Definition removeQuotes (v : jsstring) : jsstring :=
  List.filter (fun c => negb (isQuote c)) v.

(** [a === b] on strings. *)
Fixpoint strEq (a b : jsstring) : bool :=
  match a, b with
  | [], [] => true
  | x :: a', y :: b' => (x =? y)%N && strEq a' b'
  | _, _ => false
  end.

(** ** The environment

    What the two functions read from outside: the file system, the clock, the
    local time zone and the part of [Date.parse] that ECMAScript leaves to
    the engine. *)

Inductive file :=
| Missing
| Unreadable
| Readable (content : jsstring).

Record world := World {
  fs : jsstring -> file;
  (** the time value of [new Date()], in milliseconds since the epoch *)
  now : Z;
  (** ECMAScript's [LocalTZA(t, isUTC)], in milliseconds *)
  LocalTZA : Z -> bool -> Z;
  (** the result of [Date.parse] on a string that is not a date of the
      ECMAScript date-time format with legal element values: engines may
      fall back to heuristics of their own; [None] is NaN *)
  dateParseFallback : jsstring -> option Z
}.

Definition existsSync (w : world) (filePath : jsstring) : bool :=
  match fs w filePath with Missing => false | _ => true end.

(** [fs.readFileSync(filePath, 'utf8')]: [None] when it throws. *)
Definition readFileSync (w : world) (filePath : jsstring) : option jsstring :=
  match fs w filePath with Readable content => Some content | _ => None end.

(** ** extractFrontmatter *)

Record scan := Scan {
  inFrontmatter : bool;
  frontmatterLines : list jsstring;
  delimiterCount : nat
}.

Definition scanStart : scan :=
  {| inFrontmatter := false; frontmatterLines := []; delimiterCount := 0 |}.

Definition isDelimiter (line : jsstring) : bool := strEq (trim line) (js "---").

(** The last statement of the loop body. *)
Definition collect (line : jsstring) (st : scan) : scan :=
  if inFrontmatter st && (delimiterCount st =? 1)%nat then
    {| inFrontmatter := inFrontmatter st;
       frontmatterLines := frontmatterLines st ++ [line];
       delimiterCount := delimiterCount st |}
  else st.

(** The [for ... of] loop over the lines, with its [continue] and [break]. *)
Fixpoint scanLines (lines : list jsstring) (st : scan) : scan :=
  match lines with
  | [] => st
  | line :: rest =>
      if isDelimiter line then
        let st1 := {| inFrontmatter := inFrontmatter st;
                      frontmatterLines := frontmatterLines st;
                      delimiterCount := S (delimiterCount st) |} in
        if (delimiterCount st1 =? 1)%nat then
          scanLines rest {| inFrontmatter := true;
                            frontmatterLines := frontmatterLines st1;
                            delimiterCount := delimiterCount st1 |}
        else if (delimiterCount st1 =? 2)%nat then st1
        else scanLines rest (collect line st1)
      else scanLines rest (collect line st)
  end.

(** [None] is the [null] returned from the [catch] block. *)
Definition extractFrontmatter (w : world) (filePath : jsstring) : option jsstring :=
  match readFileSync w filePath with
  | None => None
  | Some content =>
      let lines := split NL content in
      Some (join [NL] (frontmatterLines (scanLines lines scanStart)))
  end.

(** ** Dates

    Time values are integers (milliseconds since the epoch); [None] is NaN. *)

Definition msPerDay : Z := 86400000.

Definition Day (t : Z) : Z := t / msPerDay.

Definition DayFromYear (y : Z) : Z :=
  365 * (y - 1970) + (y - 1969) / 4 - (y - 1901) / 100 + (y - 1601) / 400.

Definition isLeapYear (y : Z) : bool :=
  (y mod 4 =? 0) && (negb (y mod 100 =? 0) || (y mod 400 =? 0)).

Definition monthLengths (y : Z) : list Z :=
  [31; if isLeapYear y then 29 else 28; 31; 30; 31; 30; 31; 31; 30; 31; 30; 31].

Definition daysInMonth (y m : Z) : Z := nth (Z.to_nat m) (monthLengths y) 0.

Definition daysBeforeMonth (y m : Z) : Z :=
  fold_right Z.add 0 (firstn (Z.to_nat m) (monthLengths y)).

(** [MakeDay(year, month, date)], months counted from 0. *)
Definition MakeDay (year month date : Z) : Z :=
  let ym := year + month / 12 in
  let mn := month mod 12 in
  DayFromYear ym + daysBeforeMonth ym mn + date - 1.

Definition MakeDate (day time : Z) : Z := day * msPerDay + time.

Definition TimeClip (t : Z) : option Z :=
  if Z.abs t >? 8640000000000000 then None else Some t.

Definition digit (c : char) : Z := Z.of_N c - 48.

(** The date-only form [YYYY-MM-DD] of the ECMAScript date-time format, read
    as UTC; [None] when the string is not of that form or an element is out
    of range. *)
Definition isoDate (s : jsstring) : option Z :=
  match s with
  | [y1; y2; y3; y4; h1; m1; m2; h2; d1; d2] =>
      if forallb isDigit [y1; y2; y3; y4; m1; m2; d1; d2]
         && (h1 =? ch "-")%N && (h2 =? ch "-")%N then
        let y := 1000 * digit y1 + 100 * digit y2 + 10 * digit y3 + digit y4 in
        let m := 10 * digit m1 + digit m2 in
        let d := 10 * digit d1 + digit d2 in
        if (1 <=? m) && (m <=? 12) && (1 <=? d) && (d <=? daysInMonth y (m - 1)) then
          Some (MakeDate (MakeDay y (m - 1) d) 0)
        else None
      else None
  | _ => None
  end.

Definition Date_parse (w : world) (s : jsstring) : option Z :=
  match isoDate s with
  | Some t => Some t
  | None => dateParseFallback w s
  end.

(** [new Date(s).getTime()] *)
Definition newDate (w : world) (s : jsstring) : option Z :=
  match Date_parse w s with
  | Some t => TimeClip t
  | None => None
  end.

Definition LocalTime (w : world) (t : Z) : Z := t + LocalTZA w t true.
Definition UTC (w : world) (t : Z) : Z := t - LocalTZA w t false.

(** [d.setHours(0, 0, 0, 0)] on a date of time value [t]: the new time value. *)
Definition setHours0 (w : world) (t : Z) : option Z :=
  TimeClip (UTC w (MakeDate (Day (LocalTime w t)) 0)).

(** [a > b] on two dates: false when either is NaN. *)
Definition dateGt (a b : option Z) : bool :=
  match a, b with
  | Some x, Some y => x >? y
  | _, _ => false
  end.

(** ** validateMetadata *)

Record result := Result {
  errors : list string;
  warnings : list string
}.

Definition pushError (e : string) (r : result) : result :=
  {| errors := errors r ++ [e]; warnings := warnings r |}.

Definition pushWarning (e : string) (r : result) : result :=
  {| errors := errors r; warnings := warnings r ++ [e] |}.

(** The loop that fills [fieldMap]. *)
Definition setField (m : gmap jsstring jsstring) (line : jsstring) : gmap jsstring jsstring :=
  match fieldPattern line with
  | Some (key, value) => <[key := trim value]> m
  | None => m
  end.

Definition parseFields (frontmatter : jsstring) : gmap jsstring jsstring :=
  fold_left setField (split NL frontmatter) ∅.

Definition tagsCheck (fieldMap : gmap jsstring jsstring) (r : result) : result :=
  match fieldMap !! js "tags" with
  | None => pushWarning "missing tags" r
  | Some tagsValue =>
      if negb (includes (ch "[") tagsValue) then pushWarning "tags must be an array" r
      else if emptyArrayPattern tagsValue then pushWarning "tags array cannot be empty" r
      else r
  end.

Definition dateCheck (w : world) (fieldMap : gmap jsstring jsstring) (r : result) : result :=
  match fieldMap !! js "date" with
  | None => pushError "missing date" r
  | Some v =>
      let dateValue := trim (removeQuotes v) in
      if negb (datePattern dateValue) then
        pushError "invalid date format - use YYYY-MM-DD" r
      else
        match newDate w dateValue with
        | None => pushError "invalid date value" r
        | Some date =>
            let today := setHours0 w (now w) in
            if dateGt (Some date) today then pushError "date cannot be in the future" r
            else r
        end
  end.

(** The two-character strings made of two double and of two single quotes. *)
Definition emptyDouble : jsstring := [34%N; 34%N].
Definition emptySingle : jsstring := js "''".

Definition titleCheck (fieldMap : gmap jsstring jsstring) (r : result) : result :=
  match fieldMap !! js "title" with
  | None => pushError "missing title" r
  | Some v =>
      let titleValue := trim v in
      if strEq titleValue [] || strEq titleValue emptyDouble || strEq titleValue emptySingle
      then pushError "title cannot be empty" r
      else r
  end.

Definition validateMetadata (w : world) (filePath : jsstring) : result :=
  let r0 := {| errors := []; warnings := [] |} in
  if negb (existsSync w filePath) then pushError "file not found" r0
  else
    match extractFrontmatter w filePath with
    | None => pushError "cannot read file" r0
    | Some frontmatter =>
        let fieldMap := parseFields frontmatter in
        titleCheck fieldMap (dateCheck w fieldMap (tagsCheck fieldMap r0))
    end.

(** ** Notions used in the statements *)

Definition noNL (line : jsstring) : Prop := Forall (fun c => c <> NL) line.

(** Four digits, a hyphen, two digits, a hyphen, two digits. *)
Definition isYMD (v : jsstring) : Prop :=
  exists y m d : jsstring,
    v = y ++ ch "-" :: m ++ ch "-" :: d /\
    length y = 4%nat /\ length m = 2%nat /\ length d = 2%nat /\
    forallb isDigit (y ++ m ++ d) = true.

Definition opened (acc : list jsstring) : scan :=
  {| inFrontmatter := true; frontmatterLines := acc; delimiterCount := 1 |}.

Definition noDelimiter (ls : list jsstring) : Prop :=
  Forall (fun l => isDelimiter l = false) ls.

Definition noIssues : result := {| errors := []; warnings := [] |}.

Definition isTagsIssue (e : string) : bool :=
  existsb (String.eqb e)
    ["missing tags"; "tags must be an array"; "tags array cannot be empty"]%string.

Definition isDateIssue (e : string) : bool :=
  existsb (String.eqb e)
    ["missing date"; "invalid date format - use YYYY-MM-DD"; "invalid date value";
     "date cannot be in the future"]%string.

Definition isTitleIssue (e : string) : bool :=
  existsb (String.eqb e) ["missing title"; "title cannot be empty"]%string.

(** What each rule adds, on its own. *)
Definition tagsIssues (m : gmap jsstring jsstring) : list string :=
  warnings (tagsCheck m noIssues).
Definition dateIssues (w : world) (m : gmap jsstring jsstring) : list string :=
  errors (dateCheck w m noIssues).
Definition titleIssues (m : gmap jsstring jsstring) : list string :=
  errors (titleCheck m noIssues).

(** The frontmatter of a file of the given content: the body of the [try]
    block of [extractFrontmatter]. *)
Definition frontmatterOf (content : jsstring) : jsstring :=
  join [NL] (frontmatterLines (scanLines (split NL content) scanStart)).

(** ** Sample environments *)

(** One file, [doc.mdx], on a machine whose local time is a fixed offset
    (in milliseconds) from UTC. *)
Definition fixedOffsetWorld (offset : Z) (content : jsstring) (t : Z) : world :=
  {| fs := fun p => if strEq p (js "doc.mdx") then Readable content
                    else if strEq p (js "docs") then Unreadable else Missing;
     now := t;
     LocalTZA := fun _ _ => offset;
     dateParseFallback := fun _ => None |}.

Definition text (ls : list string) : jsstring := join [NL] (map js ls).

(** 2 November 2026, 04:30 UTC. *)
Definition sampleNow : Z := 1793593800000.

Definition utc (content : jsstring) : world := fixedOffsetWorld 0 content sampleNow.

(** Five and a half hours east of UTC: 10:00 local time on 2 November 2026. *)
Definition east (content : jsstring) : world := fixedOffsetWorld 19800000 content sampleNow.

Definition sampleDoc : jsstring :=
  text ["---"; "title: Notes"; "date: 2026-11-02"; "tags: [a]"; "---"; "body"]%string.

Definition innerQuoteDoc : jsstring :=
  text ["---"; "title: Notes"; "date: 20'24-01-15"; "tags: [a]"; "---"]%string.

Definition slashDateDoc : jsstring :=
  text ["---"; "title: Notes"; "date: 01/15/2024"; "---"]%string.

Definition plainDoc : jsstring := text ["# Just content"; "no frontmatter"]%string.

Definition unclosedDoc : jsstring :=
  text ["# Heading"; " --- "; "title: Notes"; EmptyString; "body"]%string.

Definition thematicBreakDoc : jsstring :=
  text ["# Release notes"; "intro"; "---"; "date: 2024-01-15"; "---"; "more"]%string.

Definition twoTitlesDoc : jsstring :=
  text ["---"; "title: First"; "date: 2024-01-15"; "title:   Second  "; "tags: [a]"; "---"]%string.

Definition emptyTagsDoc : jsstring :=
  text ["---"; "title: Notes"; "date: 2024-01-15"; "tags: [  ]"; "---"]%string.

Definition invalidDateDoc : jsstring :=
  text ["---"; "date: invalid-date"; "---"; EmptyString; "# Content"]%string.

(** Following the words of the specification: the quote characters and white
    space that surround the date value are stripped. *)
Definition stripSurrounding (v : jsstring) : jsstring :=
  let p c := isQuote c || isWhiteSpace c in
  rev (skipWhile p (rev (skipWhile p v))).

(** ** The process around the two functions

    [run], [getStagedDocFiles], [getChangedDocFiles] and [main] run git
    commands, read environment variables, write to the console and may end
    the process.  A computation yields the events it caused, in order, and
    how it ended. *)

Record host := Host {
  files : world;
  (** [execSync(command, { encoding: 'utf8' })]: the output, or the message
      of the error it throws *)
  execSync : jsstring -> jsstring + jsstring;
  (** [process.env]: [None] is [undefined] *)
  env : jsstring -> option jsstring
}.

Inductive event :=
| Exec (command : jsstring)
| ConsoleLog (line : jsstring)
| ConsoleWarn (line : jsstring)
| ConsoleError (line : jsstring).

Inductive outcome (A : Type) :=
| Return (a : A)
| Throw (message : jsstring)
| Exit (code : Z).
Arguments Return {A} a.
Arguments Throw {A} message.
Arguments Exit {A} code.

Definition proc (A : Type) : Type := list event * outcome A.

Definition events {A} (p : proc A) : list event := fst p.
Definition ending {A} (p : proc A) : outcome A := snd p.

#[export] Instance proc_ret : MRet proc := fun A a => ([], Return a).

#[export] Instance proc_bind : MBind proc := fun A B k p =>
  match snd p with
  | Return a => (fst p ++ fst (k a), snd (k a))
  | Throw message => (fst p, Throw message)
  | Exit code => (fst p, Exit code)
  end.

Definition emit (e : event) : proc unit := ([e], Return tt).

Definition throw {A} (message : jsstring) : proc A := ([], Throw message).

(** [process.exit(code)]: nothing after it runs. *)
Definition exit {A} (code : Z) : proc A := ([], Exit code).

(** [try { p } catch (error) { handler(error.message) }] *)
Definition tryCatch {A} (p : proc A) (handler : jsstring -> proc A) : proc A :=
  match snd p with
  | Throw message => (fst p ++ fst (handler message), snd (handler message))
  | _ => p
  end.

Definition exec (h : host) (command : jsstring) : proc jsstring :=
  ([Exec command],
   match execSync h command with
   | inl output => Return output
   | inr message => Throw message
   end).

Definition run (h : host) (command : jsstring) : proc jsstring :=
  tryCatch
    (output ← exec h command; mret (trim output))
    (fun message =>
       emit (ConsoleError (js "Failed to execute: " ++ command));;
       emit (ConsoleError message);;
       exit 1).

(** A run of literal characters. *)
Fixpoint lits {R} (cs s : jsstring) (k : jsstring -> option R) : option R :=
  match cs with
  | [] => k s
  | c :: cs' => lit c s (fun s' => lits cs' s' k)
  end.

(** [docPattern.test(file)] for the pattern of the two discovery functions:
    start of input, [data/docs/], any characters but line terminators,
    [.mdx], end of input. *)
Definition docPattern (file : jsstring) : bool :=
  match lits (js "data/docs/") file (fun s1 =>
        rep isDot 0 None s1 [] (fun _ s2 =>
        lits (js ".mdx") s2 (fun s3 =>
        eoi s3 tt))) with
  | Some _ => true
  | None => false
  end.

(** [Boolean(s)] on a string. *)
Definition truthy (s : jsstring) : bool := negb (strEq s []).

(** [set.add(x)] on a [Set] kept in insertion order. *)
Definition setAdd (s : list jsstring) (x : jsstring) : list jsstring :=
  if existsb (strEq x) s then s else s ++ [x].

(** [output.split('\n').filter(docPattern.test).forEach(changedFiles.add)] *)
Definition addDocFiles (output : jsstring) (changedFiles : list jsstring) : list jsstring :=
  fold_left setAdd (List.filter docPattern (split NL output)) changedFiles.

Definition getChangedDocFiles (h : host) (baseRef : jsstring) : proc (list jsstring) :=
  mergeBase ← tryCatch
    (run h (js "git merge-base HEAD " ++ baseRef))
    (fun message =>
       if negb (strEq baseRef (js "origin/main"))
       then run h (js "git merge-base HEAD origin/main")
       else throw message);
  let changedFiles := [] in
  changedFiles ← tryCatch
    (committedDiff ← exec h (js "git diff --name-only --diff-filter=ACMR " ++ mergeBase ++ js " HEAD");
     mret (addDocFiles committedDiff changedFiles))
    (fun message =>
       emit (ConsoleError (js "Unable to read git diff for docs changes."));;
       emit (ConsoleError message);;
       exit 1);
  changedFiles ← tryCatch
    (workingDiff ← exec h (js "git diff --name-only --diff-filter=ACMR HEAD");
     mret (addDocFiles workingDiff changedFiles))
    (fun message =>
       emit (ConsoleError (js "Unable to read local git diff for docs changes."));;
       emit (ConsoleError message);;
       exit 1);
  mret (List.filter truthy changedFiles).

Definition getStagedDocFiles (h : host) : proc (list jsstring) :=
  tryCatch
    (stagedFiles ← exec h (js "git diff --cached --name-only --diff-filter=ACMR");
     mret (List.filter truthy (List.filter docPattern (split NL stagedFiles))))
    (fun message =>
       emit (ConsoleError (js "Unable to read staged files."));;
       emit (ConsoleError message);;
       exit 1).

(** ** Dates as text

    [new Date().toISOString()], through ECMAScript's [YearFromTime],
    [MonthFromTime] (counted from 0) and [DateFromTime]. *)

(** The year of a day: the largest [y] with [DayFromYear y <= day], found
    from an estimate that is off by one year at most. *)
Definition yearOfDay (day : Z) : Z :=
  let y0 := 1970 + (400 * day) / 146097 in
  if DayFromYear (y0 + 1) <=? day then y0 + 1
  else if day <? DayFromYear y0 then y0 - 1
  else y0.

(** The month of a day within its year, by ECMAScript's table. *)
Definition monthOfDay (leap : bool) (dayWithinYear : Z) : Z :=
  let l := if leap then 1 else 0 in
  if dayWithinYear <? 31 then 0
  else if dayWithinYear <? 59 + l then 1
  else if dayWithinYear <? 90 + l then 2
  else if dayWithinYear <? 120 + l then 3
  else if dayWithinYear <? 151 + l then 4
  else if dayWithinYear <? 181 + l then 5
  else if dayWithinYear <? 212 + l then 6
  else if dayWithinYear <? 243 + l then 7
  else if dayWithinYear <? 273 + l then 8
  else if dayWithinYear <? 304 + l then 9
  else if dayWithinYear <? 334 + l then 10
  else 11.

Definition civil (day : Z) : Z * Z * Z :=
  let year := yearOfDay day in
  let dayWithinYear := day - DayFromYear year in
  let month := monthOfDay (isLeapYear year) dayWithinYear in
  (year, month, dayWithinYear - daysBeforeMonth year month + 1).

Definition YearFromTime (t : Z) : Z := fst (fst (civil (Day t))).
Definition MonthFromTime (t : Z) : Z := snd (fst (civil (Day t))).
Definition DateFromTime (t : Z) : Z := snd (civil (Day t)).
Definition HourFromTime (t : Z) : Z := (t / 3600000) mod 24.
Definition MinFromTime (t : Z) : Z := (t / 60000) mod 60.
Definition SecFromTime (t : Z) : Z := (t / 1000) mod 60.
Definition msFromTime (t : Z) : Z := t mod 1000.

(** The last [n] decimal digits of [v], padded with zeros. *)
Fixpoint digits (n : nat) (v : Z) : jsstring :=
  match n with
  | O => []
  | S n' => digits n' (v / 10) ++ [Z.to_N (48 + v mod 10)]
  end.

(** [d.toISOString()] for a date of time value [t]. *)
Definition toISOString (t : Z) : jsstring :=
  let y := YearFromTime t in
  (if (0 <=? y) && (y <=? 9999) then digits 4 y
   else (if y <? 0 then js "-" else js "+") ++ digits 6 (Z.abs y))
  ++ js "-" ++ digits 2 (MonthFromTime t + 1)
  ++ js "-" ++ digits 2 (DateFromTime t)
  ++ js "T" ++ digits 2 (HourFromTime t)
  ++ js ":" ++ digits 2 (MinFromTime t)
  ++ js ":" ++ digits 2 (SecFromTime t)
  ++ js "." ++ digits 3 (msFromTime t) ++ js "Z".

(** [new Date().toISOString().split('T')[0]] *)
Definition exampleDate (w : world) : jsstring :=
  hd [] (split (ch "T") (toISOString (now w))).

(** ** main *)

Record tally := Tally {
  invalidFiles : list (jsstring * list string);
  warningFiles : list (jsstring * list string);
  allValid : bool
}.

Definition tallyStart : tally :=
  {| invalidFiles := []; warningFiles := []; allValid := true |}.

(** [issues.join('; ')] *)
Definition issuesText (issues : list string) : jsstring := join (js "; ") (map js issues).

(** A number in a template literal. *)
Definition numberText (n : nat) : jsstring := js (NilEmpty.string_of_uint (Nat.to_uint n)).

Definition crossMark : jsstring := [10060%N].
Definition warningSign : jsstring := [9888%N; 65039%N].
Definition checkMark : jsstring := [9989%N].
Definition bullet : jsstring := [8226%N].
Definition quote : jsstring := [34%N].

(** The body of the loop over the changed files. *)
Definition checkFile (h : host) (st : tally) (file : jsstring) : proc tally :=
  let r := validateMetadata (files h) file in
  st ← (if (0 <? length (errors r))%nat then
          emit (ConsoleError (crossMark ++ js " " ++ file ++ js ": " ++ issuesText (errors r)));;
          mret {| invalidFiles := invalidFiles st ++ [(file, errors r)];
                  warningFiles := warningFiles st;
                  allValid := false |}
        else mret st);
  st ← (if (0 <? length (warnings r))%nat then
          emit (ConsoleWarn (warningSign ++ js "  " ++ file ++ js ": " ++ issuesText (warnings r)));;
          mret {| invalidFiles := invalidFiles st;
                  warningFiles := warningFiles st ++ [(file, warnings r)];
                  allValid := allValid st |}
        else mret st);
  (if (length (errors r) =? 0)%nat && (length (warnings r) =? 0)%nat then
     emit (ConsoleLog (checkMark ++ js " " ++ file))
   else mret tt);;
  mret st.

Fixpoint checkFiles (h : host) (changedFiles : list jsstring) (st : tally) : proc tally :=
  match changedFiles with
  | [] => mret st
  | file :: rest => st' ← checkFile h st file; checkFiles h rest st'
  end.

(** [list.forEach(({ file, issues }) => console.warn(...))] and the same for
    [console.error]: one line for each entry. *)
Definition summaryLine (entry : jsstring * list string) : jsstring :=
  js "  " ++ bullet ++ js " " ++ fst entry ++ js ": " ++ issuesText (snd entry).

Definition emitAll (es : list event) : proc unit := (es, Return tt).

Definition baseBranch (h : host) : jsstring :=
  match env h (js "GITHUB_BASE_REF") with
  | Some ref =>
      if truthy ref then js "origin/" ++ ref
      else match env h (js "DEFAULT_BRANCH") with
           | Some b => if truthy b then b else js "origin/main"
           | None => js "origin/main"
           end
  | None =>
      match env h (js "DEFAULT_BRANCH") with
      | Some b => if truthy b then b else js "origin/main"
      | None => js "origin/main"
      end
  end.

Definition isPreCommit (h : host) : bool :=
  match env h (js "HUSKY_PRE_COMMIT") with
  | Some v => strEq v (js "true")
  | None => false
  end.

(** What [main] does with the changed files once it has them. *)
Definition report (h : host) (changedFiles : list jsstring) : proc unit :=
  if (length changedFiles =? 0)%nat then
    emit (ConsoleLog (js "No documentation files to check"))
  else
    emit (ConsoleLog (js "Checking " ++ numberText (length changedFiles)
                      ++ js " documentation file(s) for required metadata..." ++ [NL]));;
    st ← checkFiles h changedFiles tallyStart;
    emit (ConsoleLog []);;
    (if (0 <? length (warningFiles st))%nat then
       emit (ConsoleWarn (js "Documentation metadata warnings:"));;
       emitAll (map (fun entry => ConsoleWarn (summaryLine entry)) (warningFiles st));;
       emit (ConsoleWarn ([NL] ++ js "Consider adding tags to improve documentation discoverability."
                          ++ [NL]))
     else mret tt);;
    (if negb (allValid st) then
       emit (ConsoleError (js "Documentation metadata validation failed:"));;
       emitAll (map (fun entry => ConsoleError (summaryLine entry)) (invalidFiles st));;
       emit (ConsoleError ([NL] ++ js "Required fields:"));;
       emit (ConsoleError (js "  - date: Date in YYYY-MM-DD format"));;
       emit (ConsoleError (js "  - title: Non-empty title field"));;
       emit (ConsoleError (js "  - tags: Array of tags (recommended)"));;
       emit (ConsoleError ([NL] ++ js "Example:"));;
       emit (ConsoleError (js "---"));;
       emit (ConsoleError (js "title: My Documentation Page"));;
       emit (ConsoleError (js "date: " ++ exampleDate (files h)));;
       emit (ConsoleError (js "tags: [" ++ quote ++ js "SigNoz Cloud" ++ quote ++ js ", "
                           ++ quote ++ js "Self-Host" ++ quote ++ js "]"));;
       emit (ConsoleError (js "---" ++ [NL]));;
       exit 1
     else mret tt);;
    emit (ConsoleLog (checkMark ++ js " All documentation files have valid metadata" ++ [NL])).

Definition main (h : host) : proc unit :=
  changedFiles ← (if isPreCommit h then getStagedDocFiles h
                  else getChangedDocFiles h (baseBranch h));
  report h changedFiles.

(** ** Notions used in the statements about the process *)

(** The first statement of [main]. *)
Definition discovery (h : host) : proc (list jsstring) :=
  if isPreCommit h then getStagedDocFiles h else getChangedDocFiles h (baseBranch h).

(** The file has no error. *)
Definition passes (w : world) (file : jsstring) : bool :=
  (length (errors (validateMetadata w file)) =? 0)%nat.

(** The entries a list of files adds to [invalidFiles] and to
    [warningFiles]. *)
Definition invalidEntries (w : world) (changed : list jsstring) : list (jsstring * list string) :=
  flat_map (fun file =>
    match errors (validateMetadata w file) with
    | [] => []
    | issues => [(file, issues)]
    end) changed.

Definition warningEntries (w : world) (changed : list jsstring) : list (jsstring * list string) :=
  flat_map (fun file =>
    match warnings (validateMetadata w file) with
    | [] => []
    | issues => [(file, issues)]
    end) changed.

(** The commands run, in order. *)
Definition commands (es : list event) : list jsstring :=
  flat_map (fun e => match e with Exec c => [c] | _ => [] end) es.

(** A computation that runs no command. *)
Definition quiet {A} (p : proc A) : Prop := commands (events p) = [].

(** ** Sample processes *)

(** A repository whose merge base is [abc123], with the given outputs of the
    committed, working-tree and staged diffs. *)
Definition gitHost (w : world) (committed working staged : jsstring)
    (env : jsstring -> option jsstring) : host :=
  {| files := w;
     execSync := fun command =>
       if strEq command (js "git merge-base HEAD origin/main") then inl (js "abc123" ++ [NL])
       else if strEq command (js "git diff --name-only --diff-filter=ACMR abc123 HEAD")
       then inl committed
       else if strEq command (js "git diff --name-only --diff-filter=ACMR HEAD")
       then inl working
       else if strEq command (js "git diff --cached --name-only --diff-filter=ACMR")
       then inl staged
       else inr (js "Command failed: " ++ command);
     env := env |}.

Definition noEnv : jsstring -> option jsstring := fun _ => None.

Definition preCommitEnv : jsstring -> option jsstring :=
  fun name => if strEq name (js "HUSKY_PRE_COMMIT") then Some (js "true") else None.

(** A document with Windows line endings. *)
Definition crlfDoc : jsstring :=
  join [NL] [js "---" ++ [13%N]; js "title: Notes" ++ [13%N];
             js "date: 2024-01-15" ++ [13%N]; js "---" ++ [13%N]; []].

(** ** Runs after the repository's tests

    The documents of [tests/docs-metadata.test.js], with the tags written
    without quote characters. *)

Example test_extract_valid :
  extractFrontmatter
    (utc (text ["---"; "title: Test Document"; "date: 2024-01-15"; "tags: [test, example]";
                "---"; EmptyString; "# Content here"; EmptyString]%string)) (js "doc.mdx") =
  Some (text ["title: Test Document"; "date: 2024-01-15"; "tags: [test, example]"]%string).
Proof. reflexivity. Qed.

Example test_extract_no_frontmatter :
  extractFrontmatter (utc (js "# Just content, no frontmatter")) (js "doc.mdx") = Some [].
Proof. reflexivity. Qed.

Example test_extract_missing :
  extractFrontmatter (utc []) (js "/non/existent/file.mdx") = None.
Proof. reflexivity. Qed.

Example test_valid :
  validateMetadata
    (utc (text ["---"; "title: Valid Document"; "date: 2024-01-15"; "tags: [SigNoz Cloud, Self-Host]";
                "---"; EmptyString; "# Content"; EmptyString]%string)) (js "doc.mdx") = noIssues.
Proof. vm_compute. reflexivity. Qed.

Example test_wrong_tags :
  validateMetadata
    (utc (text ["---"; "title: Wrong Tags Format"; "date: 2024-01-15"; "tags: test";
                "---"; EmptyString; "# Content"; EmptyString]%string)) (js "doc.mdx") =
  {| errors := []; warnings := ["tags must be an array"%string] |}.
Proof. vm_compute. reflexivity. Qed.

Example test_future_date :
  validateMetadata
    (utc (text ["---"; "title: Future Date Document"; "date: 2027-11-02"; "tags: [test]";
                "---"; EmptyString; "# Content"; EmptyString]%string)) (js "doc.mdx") =
  {| errors := ["date cannot be in the future"%string]; warnings := [] |}.
Proof. vm_compute. reflexivity. Qed.

Example test_multiple_issues :
  validateMetadata (utc invalidDateDoc) (js "doc.mdx") =
  {| errors := ["invalid date format - use YYYY-MM-DD"; "missing title"]%string;
     warnings := ["missing tags"%string] |}.
Proof. vm_compute. reflexivity. Qed.

(** A line that ends in a carriage return is not a field: the dot of the
    pattern does not match it. *)
Example field_with_carriage_return :
  fieldPattern (js "title: Notes" ++ [13%N]) = None /\
  fieldPattern (js "title: Notes") = Some (js "title", js "Notes").
Proof. split; reflexivity. Qed.

(** ** Strings: basic facts *)

Lemma strEq_spec (a b : jsstring) : strEq a b = true <-> a = b.
Proof.
  revert b; induction a as [|x a IH]; intros [|y b]; simpl; split; try done.
  - intros [Hxy Hab]%andb_true_iff. apply N.eqb_eq in Hxy. apply IH in Hab. congruence.
  - intros [= -> ->]. rewrite N.eqb_refl. simpl. by apply IH.
Qed.

Lemma takeWhile_skipWhile p (s : jsstring) : takeWhile p s ++ skipWhile p s = s.
Proof. induction s as [|c s IH]; simpl; [done|]. destruct (p c); simpl; congruence. Qed.

Lemma takeWhile_all p (s : jsstring) : forallb p (takeWhile p s) = true.
Proof. induction s as [|c s IH]; simpl; [done|]. destruct (p c) eqn:E; simpl; [by rewrite E|done]. Qed.

Lemma skipWhile_head p (s : jsstring) c s' : skipWhile p s = c :: s' -> p c = false.
Proof.
  induction s as [|x s IH]; simpl; [done|].
  destruct (p x) eqn:E; [done|]. by intros [= <- <-].
Qed.

Lemma takeWhile_app_stop p (u v : jsstring) :
  forallb p u = true -> hd_error (skipWhile p v) = hd_error v ->
  takeWhile p (u ++ v) = u /\ skipWhile p (u ++ v) = v.
Proof.
  intros Hu Hv. induction u as [|c u IH]; simpl in *.
  - destruct v as [|x v]; simpl in *; [done|].
    destruct (p x) eqn:E; [|done].
    exfalso. destruct (skipWhile p v) as [|y r] eqn:Er; simpl in Hv; [done|].
    injection Hv as ->. apply skipWhile_head in Er. congruence.
  - apply andb_true_iff in Hu as [Hc Hu]. rewrite Hc.
    destruct (IH Hu) as [-> ->]. done.
Qed.

Lemma skipWhile_all p (s : jsstring) : forallb p s = true -> skipWhile p s = [].
Proof.
  induction s as [|c s IH]; simpl; [done|].
  intros [-> Hs]%andb_true_iff. auto.
Qed.

Lemma skipWhile_nil_all p (s : jsstring) : skipWhile p s = [] -> forallb p s = true.
Proof.
  induction s as [|c s IH]; simpl; [done|].
  destruct (p c); [auto|done].
Qed.

(** [split] and [join] are inverse to each other on lists of lines. *)
Lemma split_not_nil sep (s : jsstring) : split sep s <> [].
Proof. destruct s as [|c s]; simpl; [done|]. destruct (c =? sep)%N; [done|]. by destruct (split sep s). Qed.

Lemma join_split (s : jsstring) : join [NL] (split NL s) = s.
Proof.
  induction s as [|c s IH]; simpl; [done|].
  destruct (c =? NL)%N eqn:E.
  - apply N.eqb_eq in E as ->.
    destruct (split NL s) as [|l ls] eqn:Es; [by apply split_not_nil in Es|].
    simpl. simpl in IH. by rewrite IH.
  - destruct (split NL s) as [|l ls] eqn:Es; [by apply split_not_nil in Es|].
    simpl in *. destruct ls; simpl in *; congruence.
Qed.

Lemma split_line (l : jsstring) : noNL l -> split NL l = [l].
Proof.
  induction 1 as [|c l Hc Hl IH]; simpl; [done|].
  apply N.eqb_neq in Hc. by rewrite Hc, IH.
Qed.

Lemma split_cons_line (l rest : jsstring) :
  noNL l -> split NL (l ++ NL :: rest) = l :: split NL rest.
Proof.
  induction 1 as [|c l Hc Hl IH]; simpl; [done|].
  apply N.eqb_neq in Hc. by rewrite Hc, IH.
Qed.

Lemma split_join (ls : list jsstring) :
  ls <> [] -> Forall noNL ls -> split NL (join [NL] ls) = ls.
Proof.
  induction ls as [|l ls IH]; [done|]. intros _ Hall.
  apply Forall_cons in Hall as [Hl Hls].
  destruct ls as [|l' ls'].
  - simpl. by apply split_line.
  - change (join [NL] (l :: l' :: ls')) with (l ++ NL :: join [NL] (l' :: ls')).
    rewrite split_cons_line by done. f_equal. by apply IH.
Qed.

Lemma split_noNL (s : jsstring) : Forall noNL (split NL s).
Proof.
  induction s as [|c s IH]; simpl; [repeat constructor|].
  destruct (c =? NL)%N eqn:E.
  - constructor; [constructor|done].
  - destruct (split NL s) as [|l ls]; [repeat constructor; by apply N.eqb_neq|].
    apply Forall_cons in IH as [Hl Hls].
    constructor; [|done]. constructor; [by apply N.eqb_neq|done].
Qed.

(** ** Regular expressions: what the matchers accept *)

Section MatcherFacts.
Context {R : Type}.
Implicit Types (k : jsstring -> jsstring -> option R).

(** An exact count [p{n}]: no choice to make. *)
Lemma rep_exact p n : forall (s acc : jsstring) k,
  rep p n (Some n) s acc k =
    if (n <=? length s)%nat && forallb p (firstn n s)
    then k (rev acc ++ firstn n s) (skipn n s) else None.
Proof.
  induction n as [|n IH]; intros s acc k.
  - destruct s as [|c s]; simpl; rewrite ?app_nil_r; [done|].
    by rewrite andb_false_r.
  - destruct s as [|c s]; [done|].
    cbn [rep Nat.pred oneLess moreAllowed length firstn skipn forallb].
    rewrite andb_true_r. destruct (p c); [|by rewrite andb_false_r].
    rewrite IH. cbn [rev]. rewrite <- app_assoc. simpl.
    change (S n <=? S (length s))%nat with (n <=? length s)%nat.
    destruct ((n <=? length s)%nat && forallb p (firstn n s)); [|done].
    by case_match.
Qed.

(** A star whose continuation, once it has failed, also fails after
    giving characters back: the longest run is the one that counts. *)
Lemma rep_star_longest p k :
  (forall g g' (u v : jsstring), forallb p u = true -> k g v = None -> k g' (u ++ v) = None) ->
  forall s acc, rep p 0 None s acc k = k (rev acc ++ takeWhile p s) (skipWhile p s).
Proof.
  intros Hk. induction s as [|c s IH]; intros acc; simpl.
  - by rewrite app_nil_r.
  - destruct (p c) eqn:Hc; simpl; [|by rewrite app_nil_r].
    rewrite IH. simpl. rewrite <- app_assoc. simpl.
    destruct (k (rev acc ++ c :: takeWhile p s) (skipWhile p s)) eqn:Ek; [done|].
    rewrite <- (takeWhile_skipWhile p s) at 1.
    apply (Hk _ (rev acc) (c :: takeWhile p s)) in Ek; [done|].
    simpl. by rewrite Hc, takeWhile_all.
Qed.

Lemma rep_plus p (s acc : jsstring) k :
  rep p 1 None s acc k =
    match s with
    | c :: s' => if p c then rep p 0 None s' (c :: acc) k else None
    | [] => None
    end.
Proof.
  destruct s as [|c s]; simpl; [done|].
  destruct (p c); simpl; [|done]. by destruct (rep p 0 None s (c :: acc) k).
Qed.
End MatcherFacts.

Lemma rep_ext {R} p (k k' : jsstring -> jsstring -> option R) :
  (forall g s, k g s = k' g s) ->
  forall s lo hi acc, rep p lo hi s acc k = rep p lo hi s acc k'.
Proof.
  intros Hk. induction s as [|c s IH]; intros lo hi acc; simpl.
  - destruct lo; [apply Hk|done].
  - rewrite IH, Hk. done.
Qed.

(** The tail of the field pattern: a captured run of any characters and the
    end of input. *)
Lemma dotStar_eoi {R} (f : jsstring -> R) (s : jsstring) :
  rep isDot 0 None s [] (fun g2 s4 => eoi s4 (f g2)) =
    if forallb isDot s then Some (f s) else None.
Proof.
  rewrite rep_star_longest.
  - simpl. destruct (forallb isDot s) eqn:E.
    + pose proof (takeWhile_skipWhile isDot s) as Hs.
      rewrite (skipWhile_all _ _ E) in *. rewrite app_nil_r in Hs. by rewrite Hs.
    + destruct (skipWhile isDot s) eqn:Es; [|done].
      apply skipWhile_nil_all in Es. congruence.
  - intros g g' u v _. destruct v; [done|]. by destruct u.
Qed.

Lemma wsStar_dotStar {R} (f : jsstring -> R) (s : jsstring) :
  rep isWhiteSpace 0 None s [] (fun _ s3 =>
    rep isDot 0 None s3 [] (fun g2 s4 => eoi s4 (f g2))) =
    let v := skipWhile isWhiteSpace s in
    if forallb isDot v then Some (f v) else None.
Proof.
  rewrite (rep_ext _ _ (fun _ s3 => if forallb isDot s3 then Some (f s3) else None))
    by (intros; apply dotStar_eoi).
  rewrite rep_star_longest; [done|].
  intros _ _ u v _. rewrite forallb_app.
  destruct (forallb isDot v); [done|]. by rewrite andb_false_r.
Qed.

Lemma fieldPattern_unfold (line : jsstring) :
  fieldPattern line =
    match takeWhile isWord line, skipWhile isWord line with
    | c :: key, c' :: rest =>
        if (c' =? ch ":")%N then
          let v := skipWhile isWhiteSpace rest in
          if forallb isDot v then Some (c :: key, v) else None
        else None
    | _, _ => None
    end.
Proof.
  unfold fieldPattern. rewrite rep_plus.
  destruct line as [|c line]; [done|]. simpl.
  destruct (isWord c) eqn:Hc; [|done].
  rewrite (rep_ext _ _ (fun g1 s1 => lit (ch ":") s1 (fun s2 =>
             let v := skipWhile isWhiteSpace s2 in
             if forallb isDot v then Some (g1, v) else None))).
  2:{ intros g s. destruct s as [|x s]; simpl; [done|].
      destruct (x =? ch ":")%N; [|done]. apply (wsStar_dotStar (fun v => (g, v))). }
  rewrite rep_star_longest; [done|].
  intros g g' u v Hu. destruct u as [|x u]; simpl.
  - destruct v as [|y v]; simpl; [done|]. destruct (y =? ch ":")%N; [|done].
    by destruct (forallb isDot (skipWhile isWhiteSpace v)).
  - intros _. apply andb_true_iff in Hu as [Hx _].
    destruct (x =? ch ":")%N eqn:E; [|done].
    apply N.eqb_eq in E as ->. done.
Qed.

(** The field pattern accepts exactly the lines made of a non-empty word, a
    colon, white space and a value without line terminators; the value
    captured starts after the white space. *)
Lemma fieldPattern_spec (line key value : jsstring) :
  fieldPattern line = Some (key, value) <->
  key <> [] /\ forallb isWord key = true /\
  exists ws, line = key ++ ch ":" :: ws ++ value /\
    forallb isWhiteSpace ws = true /\
    trimStart value = value /\
    forallb isDot value = true.
Proof.
  rewrite fieldPattern_unfold. split.
  - pose proof (takeWhile_skipWhile isWord line) as Hl.
    pose proof (takeWhile_all isWord line) as Hw.
    destruct (takeWhile isWord line) as [|c k]; [done|].
    destruct (skipWhile isWord line) as [|c' rest]; [done|].
    destruct (c' =? ch ":")%N eqn:E; [|done]. apply N.eqb_eq in E as ->.
    simpl. destruct (forallb isDot (skipWhile isWhiteSpace rest)) eqn:Hd; [|done].
    intros [= <- <-]. split; [done|]. split; [done|].
    exists (takeWhile isWhiteSpace rest).
    rewrite takeWhile_skipWhile, takeWhile_all. repeat split; try done.
    unfold trimStart. destruct (skipWhile isWhiteSpace rest) as [|x r] eqn:Er; [done|].
    apply skipWhile_head in Er. simpl. by rewrite Er.
  - intros (Hne & Hw & ws & -> & Hws & Htrim & Hd).
    destruct (takeWhile_app_stop isWord key (ch ":" :: ws ++ value) Hw eq_refl) as [-> ->].
    destruct key as [|c key]; [done|]. simpl.
    assert (hd_error (skipWhile isWhiteSpace value) = hd_error value) as Hhd
      by (unfold trimStart in Htrim; by rewrite Htrim).
    destruct (takeWhile_app_stop isWhiteSpace ws value Hws Hhd) as [_ ->].
    by rewrite Hd.
Qed.

(** The empty-array pattern accepts exactly an opening bracket, white space
    and a closing bracket. *)
Lemma emptyArrayPattern_spec (v : jsstring) :
  emptyArrayPattern v = true <->
  exists ws, v = ch "[" :: ws ++ [ch "]"] /\ forallb isWhiteSpace ws = true.
Proof.
  unfold emptyArrayPattern.
  destruct v as [|c v]; simpl; [split; [done|by intros (? & ? & ?)]|].
  destruct (c =? ch "[")%N eqn:Ec.
  2:{ split; [done|]. intros (ws & [= -> _] & _). done. }
  apply N.eqb_eq in Ec as ->.
  rewrite rep_star_longest.
  2:{ intros _ _ u s Hu. destruct u as [|x u]; [done|]. intros _. simpl.
      apply andb_true_iff in Hu as [Hx _].
      destruct (x =? ch "]")%N eqn:E; [|done]. apply N.eqb_eq in E as ->. done. }
  pose proof (takeWhile_skipWhile isWhiteSpace v) as Hv.
  pose proof (takeWhile_all isWhiteSpace v) as Hw.
  split.
  - destruct (skipWhile isWhiteSpace v) as [|x [|y r]]; simpl; try done.
    + destruct (x =? ch "]")%N eqn:E; [|done]. apply N.eqb_eq in E as ->.
      intros _. exists (takeWhile isWhiteSpace v). by rewrite Hv.
    + by destruct (x =? ch "]")%N.
  - intros (ws & [= ->] & Hws).
    destruct (takeWhile_app_stop isWhiteSpace ws [ch "]"] Hws eq_refl) as [_ ->].
    done.
Qed.

(** The date pattern accepts exactly the strings of ten characters of that
    shape. *)
Lemma datePattern_unfold (v : jsstring) :
  datePattern v =
    match v with
    | [y1; y2; y3; y4; h1; m1; m2; h2; d1; d2] =>
        forallb isDigit [y1; y2; y3; y4] && (h1 =? ch "-")%N
        && forallb isDigit [m1; m2] && (h2 =? ch "-")%N
        && forallb isDigit [d1; d2]
    | _ => false
    end.
Proof.
  unfold datePattern. rewrite rep_exact.
  do 4 (destruct v as [|? v]; [done|]).
  cbn [length Nat.leb firstn skipn andb rev app]. rewrite drop_0.
  destruct (forallb isDigit _); [|by do 7 (destruct v as [|? v]; try done)].
  destruct v as [|h1 v]; [done|]. cbn [lit andb].
  destruct (h1 =? ch "-")%N; [|by do 6 (destruct v as [|? v]; try done)].
  rewrite rep_exact.
  do 2 (destruct v as [|? v]; [done|]).
  cbn [length Nat.leb firstn skipn andb rev app]. rewrite drop_0.
  destruct (forallb isDigit _); [|by do 4 (destruct v as [|? v]; try done)].
  destruct v as [|h2 v]; [done|]. cbn [lit andb].
  destruct (h2 =? ch "-")%N; [|by do 3 (destruct v as [|? v]; try done)].
  rewrite rep_exact.
  do 2 (destruct v as [|? v]; [done|]).
  cbn [length Nat.leb firstn skipn andb rev app]. rewrite drop_0.
  destruct (forallb isDigit _); [|by destruct v].
  by destruct v.
Qed.

Lemma datePattern_spec (v : jsstring) : datePattern v = true <-> isYMD v.
Proof.
  rewrite datePattern_unfold. split.
  - destruct v as [|y1 [|y2 [|y3 [|y4 [|h1 [|m1 [|m2 [|h2 [|d1 [|d2 [|x v]]]]]]]]]]];
      try done.
    intros Hb. rewrite !andb_true_iff in Hb. destruct Hb as [[[[Hy Hh1] Hm] Hh2] Hd].
    apply N.eqb_eq in Hh1 as ->. apply N.eqb_eq in Hh2 as ->.
    exists [y1; y2; y3; y4], [m1; m2], [d1; d2].
    rewrite !forallb_app, Hy, Hm, Hd. done.
  - intros (y & m & d & -> & Hy & Hm & Hd & Hall).
    rewrite !forallb_app, !andb_true_iff in Hall. destruct Hall as (Ha & Hb & Hc).
    destruct y as [|y1 [|y2 [|y3 [|y4 [|x y]]]]]; try done.
    destruct m as [|m1 [|m2 [|x m]]]; try done.
    destruct d as [|d1 [|d2 [|x d]]]; try done.
    cbn [app]. rewrite !N.eqb_refl, Ha, Hb, Hc. done.
Qed.

(** ** The scan of extractFrontmatter *)

Lemma scanLines_before (pre rest : list jsstring) :
  noDelimiter pre -> scanLines (pre ++ rest) scanStart = scanLines rest scanStart.
Proof.
  induction 1 as [|l pre Hl _ IH]; simpl; [done|]. by rewrite Hl.
Qed.

Lemma scanLines_open (d : jsstring) (rest : list jsstring) :
  isDelimiter d = true -> scanLines (d :: rest) scanStart = scanLines rest (opened []).
Proof. intros Hd. simpl. by rewrite Hd. Qed.

Lemma scanLines_inside (mid rest acc : list jsstring) :
  noDelimiter mid -> scanLines (mid ++ rest) (opened acc) = scanLines rest (opened (acc ++ mid)).
Proof.
  intros Hmid. revert acc. induction Hmid as [|l mid Hl _ IH]; intros acc; simpl.
  - by rewrite app_nil_r.
  - rewrite Hl. unfold collect. simpl. fold (opened (acc ++ [l])).
    rewrite IH, <- app_assoc. done.
Qed.

Lemma scanLines_close (d : jsstring) (rest acc : list jsstring) :
  isDelimiter d = true -> frontmatterLines (scanLines (d :: rest) (opened acc)) = acc.
Proof. intros Hd. simpl. by rewrite Hd. Qed.

(** ** The field map *)

Lemma parseFields_join (ls : list jsstring) :
  Forall noNL ls -> parseFields (join [NL] ls) = fold_left setField ls ∅.
Proof.
  intros Hls. unfold parseFields. destruct ls as [|l ls]; [done|].
  by rewrite split_join.
Qed.

Lemma setField_other (m : gmap jsstring jsstring) (line key : jsstring) :
  (forall v, fieldPattern line <> Some (key, v)) -> setField m line !! key = m !! key.
Proof.
  intros Hne. unfold setField. destruct (fieldPattern line) as [[k v]|]; [|done].
  apply lookup_insert_ne. intros ->. by apply (Hne v).
Qed.

Lemma fold_setField_kept (l2 : list jsstring) (key : jsstring) :
  (forall l v, In l l2 -> fieldPattern l <> Some (key, v)) ->
  forall m : gmap jsstring jsstring, fold_left setField l2 m !! key = m !! key.
Proof.
  induction l2 as [|l l2 IH]; intros Hno m; simpl; [done|].
  rewrite IH by (intros; apply Hno; by right).
  apply setField_other. intros v. apply Hno. by left.
Qed.

(** After the loop the map holds, for a key, the value of the last line that
    sets it. *)
Lemma fold_setField_last (l1 l2 : list jsstring) (line key value : jsstring)
    (m : gmap jsstring jsstring) :
  fieldPattern line = Some (key, value) ->
  (forall l v, In l l2 -> fieldPattern l <> Some (key, v)) ->
  fold_left setField (l1 ++ line :: l2) m !! key = Some (trim value).
Proof.
  intros Hline Hno. rewrite fold_left_app. simpl.
  rewrite fold_setField_kept by done.
  unfold setField at 1. rewrite Hline. apply lookup_insert_eq.
Qed.

(** ** The three rules *)

Lemma tagsCheck_adds m r :
  tagsCheck m r = {| errors := errors r; warnings := warnings r ++ tagsIssues m |}.
Proof.
  unfold tagsIssues, tagsCheck. destruct r as [es ws].
  repeat case_match; simpl; by rewrite ?app_nil_r.
Qed.

Lemma dateCheck_adds w m r :
  dateCheck w m r = {| errors := errors r ++ dateIssues w m; warnings := warnings r |}.
Proof.
  unfold dateIssues, dateCheck. destruct r as [es ws].
  repeat case_match; simpl; by rewrite ?app_nil_r.
Qed.

Lemma titleCheck_adds m r :
  titleCheck m r = {| errors := errors r ++ titleIssues m; warnings := warnings r |}.
Proof.
  unfold titleIssues, titleCheck. destruct r as [es ws].
  repeat case_match; simpl; by rewrite ?app_nil_r.
Qed.

Lemma tagsIssues_class m : Forall (fun e => isTagsIssue e = true) (tagsIssues m).
Proof. unfold tagsIssues, tagsCheck. repeat case_match; simpl; by repeat constructor. Qed.

Lemma dateIssues_class w m : Forall (fun e => isDateIssue e = true) (dateIssues w m).
Proof. unfold dateIssues, dateCheck. repeat case_match; simpl; by repeat constructor. Qed.

Lemma titleIssues_class m : Forall (fun e => isTitleIssue e = true) (titleIssues m).
Proof. unfold titleIssues, titleCheck. repeat case_match; simpl; by repeat constructor. Qed.

Lemma dateIssues_length w m : (length (dateIssues w m) <= 1)%nat.
Proof. unfold dateIssues, dateCheck. repeat case_match; simpl; lia. Qed.

Lemma date_title_disjoint e : isDateIssue e = true -> isTitleIssue e = true -> False.
Proof.
  unfold isDateIssue, isTitleIssue. simpl. rewrite !orb_false_r, !orb_true_iff, !String.eqb_eq.
  intros [->|[->|[->| ->]]] [?|?]; done.
Qed.

Lemma tags_not_error e : isTagsIssue e = true -> isDateIssue e = false /\ isTitleIssue e = false.
Proof.
  unfold isTagsIssue. simpl. rewrite !orb_false_r, !orb_true_iff, !String.eqb_eq.
  intros [->|[->| ->]]; done.
Qed.

(** The two functions on a file that can be read. *)
Lemma extractFrontmatter_readable w filePath content :
  fs w filePath = Readable content ->
  extractFrontmatter w filePath = Some (frontmatterOf content).
Proof. intros Hf. unfold extractFrontmatter, readFileSync. by rewrite Hf. Qed.

Lemma validateMetadata_readable w filePath content :
  fs w filePath = Readable content ->
  let m := parseFields (frontmatterOf content) in
  validateMetadata w filePath =
    {| errors := dateIssues w m ++ titleIssues m; warnings := tagsIssues m |}.
Proof.
  intros Hf m. unfold validateMetadata, existsSync.
  rewrite (extractFrontmatter_readable _ _ _ Hf), Hf. simpl.
  fold noIssues. fold m. rewrite titleCheck_adds, dateCheck_adds, tagsCheck_adds. done.
Qed.

Lemma titleIssues_no_date_issue m e :
  isDateIssue e = true -> ~ In e (titleIssues m).
Proof.
  intros He Hin. pose proof (titleIssues_class m) as Hall.
  rewrite List.Forall_forall in Hall. apply (date_title_disjoint e He). by apply Hall.
Qed.

(** ** The future-date check *)

(** With a fixed offset the check compares the UTC midnight of the date with
    the local midnight of today. *)
Lemma future_check_fixed_offset (offset t D : Z) content :
  let w := fixedOffsetWorld offset content t in
  Z.abs (Day (t + offset) * msPerDay - offset) <= 8640000000000000 ->
  dateGt (Some (D * msPerDay)) (setHours0 w (now w)) =
    (D * msPerDay + offset >? Day (t + offset) * msPerDay).
Proof.
  intros w Hclip. unfold setHours0, UTC, LocalTime, MakeDate, TimeClip. simpl.
  rewrite Z.add_0_r.
  destruct (Z.gtb_spec (Z.abs (Day (t + offset) * msPerDay - offset)) 8640000000000000); [lia|].
  simpl. destruct (Z.gtb_spec (D * msPerDay) (Day (t + offset) * msPerDay - offset)),
    (Z.gtb_spec (D * msPerDay + offset) (Day (t + offset) * msPerDay)); lia.
Qed.

(** The same for the whole validation: a file whose date is day [D]. *)
Lemma future_error_fixed_offset (offset t D : Z) (content v : jsstring) :
  let w := fixedOffsetWorld offset content t in
  parseFields (frontmatterOf content) !! js "date" = Some v ->
  datePattern (trim (removeQuotes v)) = true ->
  isoDate (trim (removeQuotes v)) = Some (MakeDate D 0) ->
  Z.abs (MakeDate D 0) <= 8640000000000000 ->
  Z.abs (Day (t + offset) * msPerDay - offset) <= 8640000000000000 ->
  In "date cannot be in the future"%string (errors (validateMetadata w (js "doc.mdx"))) <->
  D * msPerDay + offset > Day (t + offset) * msPerDay.
Proof.
  intros w Hv Hpat Hiso HclipD Hclip.
  rewrite (validateMetadata_readable w (js "doc.mdx") content eq_refl). simpl.
  rewrite in_app_iff.
  assert (dateIssues w (parseFields (frontmatterOf content)) =
          if D * msPerDay + offset >? Day (t + offset) * msPerDay
          then ["date cannot be in the future"%string] else []) as ->.
  { unfold dateIssues, dateCheck, newDate, Date_parse. rewrite Hv, Hpat, Hiso. simpl.
    unfold TimeClip at 1.
    destruct (Z.gtb_spec (Z.abs (MakeDate D 0)) 8640000000000000); [lia|].
    unfold MakeDate at 1. rewrite Z.add_0_r.
    pose proof (future_check_fixed_offset offset t D content Hclip) as Hgt.
    change (match setHours0 w t with Some y => D * msPerDay >? y | None => false end)
      with (dateGt (Some (D * msPerDay)) (setHours0 w (now w))).
    unfold w. rewrite Hgt. by case_match. }
  destruct (Z.gtb_spec (D * msPerDay + offset) (Day (t + offset) * msPerDay)); split.
  - lia.
  - intros _. left. by left.
  - intros [[]|Ht]. by apply titleIssues_no_date_issue in Ht.
  - lia.
Qed.

(** At UTC and west of it a date is reported exactly when its day is after
    the local day. *)
Lemma future_error_west (offset t D : Z) (content v : jsstring) :
  let w := fixedOffsetWorld offset content t in
  - msPerDay < offset <= 0 ->
  parseFields (frontmatterOf content) !! js "date" = Some v ->
  datePattern (trim (removeQuotes v)) = true ->
  isoDate (trim (removeQuotes v)) = Some (MakeDate D 0) ->
  Z.abs (MakeDate D 0) <= 8640000000000000 ->
  Z.abs (Day (t + offset) * msPerDay - offset) <= 8640000000000000 ->
  In "date cannot be in the future"%string (errors (validateMetadata w (js "doc.mdx"))) <->
  D > Day (LocalTime w (now w)).
Proof.
  intros w Hoff Hv Hpat Hiso HclipD Hclip. unfold w.
  rewrite (future_error_fixed_offset offset t D content v) by done.
  unfold LocalTime. simpl. unfold msPerDay in *. lia.
Qed.

(** East of UTC it is reported as soon as its day is the local day. *)
Lemma future_error_east (offset t D : Z) (content v : jsstring) :
  let w := fixedOffsetWorld offset content t in
  0 < offset < msPerDay ->
  parseFields (frontmatterOf content) !! js "date" = Some v ->
  datePattern (trim (removeQuotes v)) = true ->
  isoDate (trim (removeQuotes v)) = Some (MakeDate D 0) ->
  Z.abs (MakeDate D 0) <= 8640000000000000 ->
  Z.abs (Day (t + offset) * msPerDay - offset) <= 8640000000000000 ->
  In "date cannot be in the future"%string (errors (validateMetadata w (js "doc.mdx"))) <->
  D >= Day (LocalTime w (now w)).
Proof.
  intros w Hoff Hv Hpat Hiso HclipD Hclip. unfold w.
  rewrite (future_error_fixed_offset offset t D content v) by done.
  unfold LocalTime. simpl. unfold msPerDay in *. lia.
Qed.

(** C1 (the code departs from the claim). On a machine five and a half hours
    east of UTC, on 2 November 2026 at 10:00 local time, a file dated
    2026-11-02 has a date equal to the local day (and to the UTC day, the
    one [main] prints as its example), and [validateMetadata] reports it as
    being in the future. *)
Theorem validateMetadata_today_reported_east_of_utc :
  parseFields (frontmatterOf sampleDoc) !! js "date" = Some (js "2026-11-02") /\
  Day (LocalTime (east sampleDoc) (now (east sampleDoc))) = MakeDay 2026 10 2 /\
  Day (now (east sampleDoc)) = MakeDay 2026 10 2 /\
  newDate (east sampleDoc) (js "2026-11-02") = Some (MakeDate (MakeDay 2026 10 2) 0) /\
  validateMetadata (east sampleDoc) (js "doc.mdx") =
    {| errors := ["date cannot be in the future"%string]; warnings := [] |}.
Proof. vm_compute. done. Qed.

(** ** The date format rule *)

Lemma dateIssues_format (w : world) (m : gmap jsstring jsstring) (v : jsstring) :
  m !! js "date" = Some v ->
  In "invalid date format - use YYYY-MM-DD"%string (dateIssues w m) <->
  datePattern (trim (removeQuotes v)) = false.
Proof.
  intros Hv. unfold dateIssues, dateCheck. rewrite Hv.
  destruct (datePattern (trim (removeQuotes v))); simpl.
  - split; [|done]. repeat case_match; simpl; intuition discriminate.
  - split; [done|]. by left.
Qed.

(** C2 (as stated, refuted). The value [20'24-01-15] has no surrounding
    quote; stripped of surrounding quotes and white space it does not match
    the pattern, and yet no format error is reported: the code removes every
    quote character, also inside the value. *)
Lemma date_inner_quote_not_reported :
  parseFields (frontmatterOf innerQuoteDoc) !! js "date" = Some (js "20'24-01-15") /\
  datePattern (stripSurrounding (js "20'24-01-15")) = false /\
  ~ In "invalid date format - use YYYY-MM-DD"%string
       (errors (validateMetadata (utc innerQuoteDoc) (js "doc.mdx"))).
Proof.
  split; [by vm_compute|]. split; [by vm_compute|].
  vm_compute. tauto.
Qed.

(** C2 (amended). For a readable file whose field map has a date, every
    quote character is removed from the value, wherever it stands, and the
    result is trimmed; the format error is reported exactly when what is left
    is not four digits, a hyphen, two digits, a hyphen and two digits. *)
Theorem validateMetadata_date_format w filePath content v :
  fs w filePath = Readable content ->
  parseFields (frontmatterOf content) !! js "date" = Some v ->
  In "invalid date format - use YYYY-MM-DD"%string (errors (validateMetadata w filePath)) <->
  ~ isYMD (trim (removeQuotes v)).
Proof.
  intros Hf Hv. rewrite (validateMetadata_readable _ _ _ Hf). simpl.
  rewrite in_app_iff, (dateIssues_format _ _ _ Hv), <- datePattern_spec.
  split.
  - intros [H|H]; [by rewrite H|]. by apply titleIssues_no_date_issue in H.
  - intros H. left. by destruct (datePattern _).
Qed.

Lemma validateMetadata_date_format_witness :
  In "invalid date format - use YYYY-MM-DD"%string
     (errors (validateMetadata (utc slashDateDoc) (js "doc.mdx"))) <->
  ~ isYMD (trim (removeQuotes (js "01/15/2024"))).
Proof.
  apply (validateMetadata_date_format (utc slashDateDoc) (js "doc.mdx") slashDateDoc
           (js "01/15/2024")); reflexivity.
Defined.

(** ** Files that are missing or cannot be read *)

(** C3. For a path that names no existing file the result is exactly the
    error [file not found] and no warning, whatever else the environment
    holds. *)
Theorem validateMetadata_file_not_found w filePath :
  existsSync w filePath = false ->
  validateMetadata w filePath = {| errors := ["file not found"%string]; warnings := [] |}.
Proof. intros He. unfold validateMetadata. by rewrite He. Qed.

Lemma validateMetadata_file_not_found_witness :
  validateMetadata (utc sampleDoc) (js "/non/existent/file.mdx") =
    {| errors := ["file not found"%string]; warnings := [] |}.
Proof. apply validateMetadata_file_not_found. reflexivity. Defined.

(** C6. A readable file without a delimiter line gives the empty string;
    [null] is returned exactly when the file cannot be read; the two results
    differ; and for an existing file [validateMetadata] turns [null] into
    the single error [cannot read file]. *)
Theorem extractFrontmatter_empty_or_null w filePath :
  (forall content, fs w filePath = Readable content ->
     noDelimiter (split NL content) -> extractFrontmatter w filePath = Some []) /\
  (extractFrontmatter w filePath = None <-> readFileSync w filePath = None) /\
  Some ([] : jsstring) <> None /\
  (existsSync w filePath = true -> extractFrontmatter w filePath = None ->
     validateMetadata w filePath =
       {| errors := ["cannot read file"%string]; warnings := [] |}).
Proof.
  repeat split.
  - intros content Hf Hno. rewrite (extractFrontmatter_readable _ _ _ Hf).
    unfold frontmatterOf.
    rewrite <- (app_nil_r (split NL content)), scanLines_before by done. done.
  - unfold extractFrontmatter. by destruct (readFileSync w filePath).
  - unfold extractFrontmatter. by intros ->.
  - done.
  - intros He Hx. unfold validateMetadata. by rewrite He, Hx.
Qed.

Lemma extractFrontmatter_empty_or_null_witness :
  extractFrontmatter (utc plainDoc) (js "doc.mdx") = Some [] /\
  validateMetadata (utc plainDoc) (js "docs") =
    {| errors := ["cannot read file"%string]; warnings := [] |}.
Proof.
  destruct (extractFrontmatter_empty_or_null (utc plainDoc) (js "doc.mdx")) as (Hempty & _).
  destruct (extractFrontmatter_empty_or_null (utc plainDoc) (js "docs")) as (_ & _ & _ & Hnull).
  split.
  - apply (Hempty _ eq_refl). repeat constructor.
  - apply Hnull; reflexivity.
Defined.

(** ** Where the frontmatter starts and ends *)

(** C7. With exactly one delimiter line the result is every line after it,
    up to the end of the file, joined by newlines. *)
Theorem extractFrontmatter_unclosed w filePath content pre d post :
  fs w filePath = Readable content ->
  split NL content = pre ++ d :: post ->
  noDelimiter pre -> isDelimiter d = true -> noDelimiter post ->
  extractFrontmatter w filePath = Some (join [NL] post).
Proof.
  intros Hf Hs Hpre Hd Hpost. rewrite (extractFrontmatter_readable _ _ _ Hf).
  unfold frontmatterOf. rewrite Hs, scanLines_before, scanLines_open by done.
  rewrite <- (app_nil_r post), scanLines_inside by done. simpl. by rewrite app_nil_r.
Qed.

Lemma extractFrontmatter_unclosed_witness :
  extractFrontmatter (utc unclosedDoc) (js "doc.mdx") =
    Some (text ["title: Notes"; EmptyString; "body"]%string).
Proof.
  apply (extractFrontmatter_unclosed (utc unclosedDoc) (js "doc.mdx") unclosedDoc
           [js "# Heading"] (js " --- ") [js "title: Notes"; []; js "body"]);
    try reflexivity; repeat constructor.
Defined.

(** C10. The region opens at the first delimiter line wherever it stands:
    the lines before it play no part, and when a second delimiter line
    follows, the lines between the two are the frontmatter that is parsed
    and validated. *)
Theorem extractFrontmatter_opens_anywhere w filePath content pre d1 rest :
  fs w filePath = Readable content ->
  split NL content = pre ++ d1 :: rest ->
  noDelimiter pre -> isDelimiter d1 = true ->
  extractFrontmatter w filePath =
    Some (join [NL] (frontmatterLines (scanLines rest (opened [])))) /\
  forall mid d2 post,
    rest = mid ++ d2 :: post -> noDelimiter mid -> isDelimiter d2 = true ->
    extractFrontmatter w filePath = Some (join [NL] mid) /\
    let m := fold_left setField mid ∅ in
    validateMetadata w filePath =
      {| errors := dateIssues w m ++ titleIssues m; warnings := tagsIssues m |}.
Proof.
  intros Hf Hs Hpre Hd1.
  assert (frontmatterOf content = join [NL] (frontmatterLines (scanLines rest (opened [])))) as Hfm.
  { unfold frontmatterOf. by rewrite Hs, scanLines_before, scanLines_open. }
  rewrite (extractFrontmatter_readable _ _ _ Hf), Hfm. split; [done|].
  intros mid d2 post -> Hmid Hd2.
  rewrite scanLines_inside, scanLines_close in * by done. simpl. split; [done|].
  rewrite (validateMetadata_readable _ _ _ Hf), Hfm, parseFields_join; [done|].
  pose proof (split_noNL content) as Hall. rewrite Hs in Hall.
  apply Forall_app in Hall as [_ Hall]. apply Forall_cons in Hall as [_ Hall].
  by apply Forall_app in Hall as [Hall _].
Qed.

Lemma extractFrontmatter_opens_anywhere_witness :
  extractFrontmatter (utc thematicBreakDoc) (js "doc.mdx") = Some (js "date: 2024-01-15") /\
  validateMetadata (utc thematicBreakDoc) (js "doc.mdx") =
    {| errors := ["missing title"%string]; warnings := ["missing tags"%string] |}.
Proof.
  destruct (extractFrontmatter_opens_anywhere (utc thematicBreakDoc) (js "doc.mdx")
              thematicBreakDoc [js "# Release notes"; js "intro"] (js "---")
              [js "date: 2024-01-15"; js "---"; js "more"] eq_refl eq_refl)
    as [_ H]; [repeat constructor|reflexivity|].
  destruct (H [js "date: 2024-01-15"] (js "---") [js "more"] eq_refl) as [H1 H2];
    [repeat constructor|reflexivity|].
  split; [exact H1|]. rewrite H2. reflexivity.
Defined.

(** ** The field map and the rules *)

(** C8. When several lines set the same field, the map holds the trimmed
    value of the last of them, and the rules are evaluated on that map. *)
Theorem parseFields_last_wins w filePath content l1 line l2 key value :
  fs w filePath = Readable content ->
  split NL (frontmatterOf content) = l1 ++ line :: l2 ->
  fieldPattern line = Some (key, value) ->
  (forall l v, In l l2 -> fieldPattern l <> Some (key, v)) ->
  let m := parseFields (frontmatterOf content) in
  m !! key = Some (trim value) /\
  validateMetadata w filePath =
    titleCheck m (dateCheck w m (tagsCheck m noIssues)).
Proof.
  intros Hf Hs Hline Hno m. split.
  - unfold m, parseFields. rewrite Hs. by apply fold_setField_last.
  - unfold validateMetadata, existsSync.
    by rewrite (extractFrontmatter_readable _ _ _ Hf), Hf.
Qed.

Lemma parseFields_last_wins_witness :
  parseFields (frontmatterOf twoTitlesDoc) !! js "title" = Some (js "Second").
Proof.
  assert (forall l v, In l [js "tags: [a]"] -> fieldPattern l <> Some (js "title", v)) as Hno.
  { intros l v [<-|[]]. vm_compute. discriminate. }
  exact (proj1 (parseFields_last_wins (utc twoTitlesDoc) (js "doc.mdx") twoTitlesDoc
                  [js "title: First"; js "date: 2024-01-15"] (js "title:   Second  ")
                  [js "tags: [a]"] (js "title") (js "Second  ") eq_refl eq_refl eq_refl Hno)).
Defined.

(** C4. For a readable file at most one of the date issue codes is among
    the errors. *)
Theorem validateMetadata_one_date_error w filePath content :
  fs w filePath = Readable content ->
  (length (List.filter isDateIssue (errors (validateMetadata w filePath))) <= 1)%nat.
Proof.
  intros Hf. rewrite (validateMetadata_readable _ _ _ Hf). simpl.
  rewrite List.filter_app, length_app.
  set (m := parseFields (frontmatterOf content)).
  assert (List.filter isDateIssue (titleIssues m) = []) as ->.
  { pose proof (titleIssues_class m) as Hall.
    induction Hall as [|e es He _ IH]; simpl; [done|].
    destruct (isDateIssue e) eqn:Hd; [|done].
    by destruct (date_title_disjoint e). }
  pose proof (filter_length_le isDateIssue (dateIssues w m)).
  pose proof (dateIssues_length w m). simpl. lia.
Qed.

Lemma validateMetadata_one_date_error_witness :
  (length (List.filter isDateIssue
     (errors (validateMetadata (utc invalidDateDoc) (js "doc.mdx")))) <= 1)%nat.
Proof. apply (validateMetadata_one_date_error _ _ invalidDateDoc). reflexivity. Defined.

Lemma includes_In (c : char) (s : jsstring) : includes c s = true <-> In c s.
Proof.
  unfold includes. rewrite existsb_exists. split.
  - intros (x & Hx & ->%N.eqb_eq). done.
  - intros Hc. exists c. by rewrite N.eqb_refl.
Qed.

(** C5. For a readable file the tags rule adds nothing to the errors, and
    the warnings are: [missing tags] when the map has no tags; [tags must be
    an array] when the value has no opening bracket; [tags array cannot be
    empty] when the value is an opening bracket, white space and a closing
    bracket; nothing otherwise. *)
Theorem validateMetadata_tags_rule w filePath content :
  fs w filePath = Readable content ->
  let r := validateMetadata w filePath in
  Forall (fun e => isTagsIssue e = false) (errors r) /\
  match parseFields (frontmatterOf content) !! js "tags" with
  | None => warnings r = ["missing tags"%string]
  | Some v =>
      let emptyArray :=
        exists ws, v = ch "[" :: ws ++ [ch "]"] /\ forallb isWhiteSpace ws = true in
      (~ In (ch "[") v -> warnings r = ["tags must be an array"%string]) /\
      (emptyArray -> warnings r = ["tags array cannot be empty"%string]) /\
      (In (ch "[") v -> ~ emptyArray -> warnings r = [])
  end.
Proof.
  intros Hf r. unfold r. rewrite (validateMetadata_readable _ _ _ Hf). simpl.
  set (m := parseFields (frontmatterOf content)). split.
  - apply Forall_app. split.
    + eapply Forall_impl; [apply dateIssues_class|]. simpl. intros e He.
      destruct (isTagsIssue e) eqn:Ht; [|done]. apply tags_not_error in Ht as [Ht _]. congruence.
    + eapply Forall_impl; [apply titleIssues_class|]. simpl. intros e He.
      destruct (isTagsIssue e) eqn:Ht; [|done]. apply tags_not_error in Ht as [_ Ht]. congruence.
  - unfold tagsIssues, tagsCheck.
    destruct (m !! js "tags") as [v|]; [|done].
    pose proof (includes_In (ch "[") v) as Hin.
    pose proof (emptyArrayPattern_spec v) as Hemp.
    destruct (includes (ch "[") v); simpl.
    + destruct (emptyArrayPattern v); simpl; (split; [|split]).
      * intros Hn. destruct Hn. by apply Hin.
      * done.
      * intros _ Hn. destruct Hn. by apply Hemp.
      * intros Hn. destruct Hn. by apply Hin.
      * intros He. by apply Hemp in He.
      * done.
    + split; [done|split].
      * intros (ws & -> & _). assert (false = true); [|done]. apply Hin. by left.
      * intros Hc. by apply Hin in Hc.
Qed.

Lemma validateMetadata_tags_rule_witness :
  warnings (validateMetadata (utc emptyTagsDoc) (js "doc.mdx")) =
    ["tags array cannot be empty"%string].
Proof.
  pose proof (validateMetadata_tags_rule (utc emptyTagsDoc) (js "doc.mdx") emptyTagsDoc eq_refl)
    as [_ H].
  change (parseFields (frontmatterOf emptyTagsDoc) !! js "tags") with (Some (js "[  ]")) in H.
  destruct H as (_ & H & _). apply H. exists (js "  "). split; reflexivity.
Defined.

(** C9. For a readable file the warnings hold tags issues only, the errors
    hold date and title issues only, and in the errors every date issue
    stands before every title issue. *)
Theorem validateMetadata_issue_order w filePath content :
  fs w filePath = Readable content ->
  let r := validateMetadata w filePath in
  Forall (fun e => isTagsIssue e = true) (warnings r) /\
  Forall (fun e => isDateIssue e = true \/ isTitleIssue e = true) (errors r) /\
  forall (i j : nat) (e1 e2 : string),
    errors r !! i = Some e1 -> errors r !! j = Some e2 ->
    isDateIssue e1 = true -> isTitleIssue e2 = true -> (i < j)%nat.
Proof.
  intros Hf r. unfold r. rewrite (validateMetadata_readable _ _ _ Hf). simpl.
  set (m := parseFields (frontmatterOf content)).
  pose proof (dateIssues_class w m) as Hd. pose proof (titleIssues_class m) as Ht.
  split; [apply tagsIssues_class|]. split.
  - apply Forall_app. split; (eapply Forall_impl; [eassumption|]); simpl; auto.
  - intros i j e1 e2 H1 H2 He1 He2.
    rewrite List.Forall_forall in Hd, Ht.
    apply lookup_app_Some in H1 as [H1|[_ H1]], H2 as [H2|[Hj H2]].
    + apply list_elem_of_lookup_2, list_elem_of_In, Hd in H2.
      by destruct (date_title_disjoint e2).
    + apply lookup_lt_Some in H1. lia.
    + apply list_elem_of_lookup_2, list_elem_of_In, Ht in H1.
      by destruct (date_title_disjoint e1).
    + apply list_elem_of_lookup_2, list_elem_of_In, Ht in H1.
      by destruct (date_title_disjoint e1).
Qed.

Lemma validateMetadata_issue_order_witness :
  errors (validateMetadata (utc invalidDateDoc) (js "doc.mdx")) =
    ["invalid date format - use YYYY-MM-DD"; "missing title"]%string /\
  Forall (fun e => isTagsIssue e = true)
    (warnings (validateMetadata (utc invalidDateDoc) (js "doc.mdx"))).
Proof.
  split; [reflexivity|].
  apply (validateMetadata_issue_order (utc invalidDateDoc) (js "doc.mdx") invalidDateDoc eq_refl).
Defined.

(** ** Which files are checked *)

Arguments js : simpl never.

(** A star under backtracking succeeds exactly when some run of the class,
    of whatever length, lets the rest of the pattern succeed. *)
Lemma rep_star_some {R} p (k : jsstring -> jsstring -> option R) (s : jsstring) :
  forall acc,
    is_Some (rep p 0 None s acc k) <->
    exists u v, s = u ++ v /\ forallb p u = true /\ is_Some (k (rev acc ++ u) v).
Proof.
  induction s as [|c s IH]; intros acc; simpl.
  - split.
    + intros Hk. exists [], []. simpl. by rewrite app_nil_r.
    + intros (u & v & Huv & _ & Hk). symmetry in Huv.
      apply app_eq_nil in Huv as [-> ->]. by rewrite app_nil_r in Hk.
  - destruct (p c) eqn:Hc; simpl.
    + split.
      * destruct (rep p 0 None s (c :: acc) k) eqn:Er.
        -- intros _. assert (is_Some (rep p 0 None s (c :: acc) k)) as Hs by (by rewrite Er).
           apply IH in Hs as (u & v & -> & Hu & Hk). exists (c :: u), v. simpl.
           rewrite Hc, Hu. simpl in Hk. rewrite <- app_assoc in Hk. done.
        -- intros Hk. exists [], (c :: s). simpl. by rewrite app_nil_r.
      * intros (u & v & Huv & Hu & Hk). destruct u as [|x u].
        -- simpl in Huv. subst v. rewrite app_nil_r in Hk.
           by destruct (rep p 0 None s (c :: acc) k).
        -- injection Huv as <- ->. simpl in Hu. apply andb_true_iff in Hu as [_ Hu].
           assert (is_Some (rep p 0 None (u ++ v) (c :: acc) k)) as [r ->]; [|done].
           apply IH. exists u, v. simpl. rewrite <- app_assoc. done.
    + split.
      * intros Hk. exists [], (c :: s). simpl. by rewrite app_nil_r.
      * intros (u & v & Huv & Hu & Hk). destruct u as [|x u].
        -- simpl in Huv. subst v. by rewrite app_nil_r in Hk.
        -- injection Huv as <- ->. simpl in Hu. by rewrite Hc in Hu.
Qed.

Lemma lits_some {R} (cs : jsstring) (k : jsstring -> option R) :
  forall s, is_Some (lits cs s k) <-> exists s', s = cs ++ s' /\ is_Some (k s').
Proof.
  induction cs as [|c cs IH]; intros s; simpl.
  - split; [intros Hk; by exists s|]. by intros (s' & -> & Hk).
  - destruct s as [|x s]; simpl.
    + split; [by intros []|]. by intros (s' & ? & _).
    + destruct (x =? c)%N eqn:E.
      * apply N.eqb_eq in E as ->. rewrite IH. split.
        -- intros (s' & -> & Hk). by exists s'.
        -- intros (s' & [= ->] & Hk). by exists s'.
      * split; [by intros []|]. intros (s' & [= -> _] & _).
        by rewrite N.eqb_refl in E.
Qed.

(** X1. The two discovery functions keep exactly the paths made of
    [data/docs/], a name without line terminators (directories included) and
    the ending [.mdx]. *)
Theorem docPattern_shape (file : jsstring) :
  docPattern file = true <->
  exists name, file = js "data/docs/" ++ name ++ js ".mdx" /\ forallb isDot name = true.
Proof.
  unfold docPattern.
  set (m := lits _ _ _).
  transitivity (is_Some m).
  { destruct m; split; try done; by intros []. }
  unfold m. rewrite lits_some. split.
  - intros (s1 & -> & Hs). apply rep_star_some in Hs as (u & v & -> & Hu & Hs).
    apply lits_some in Hs as (s3 & -> & Hs). destruct s3; [|by destruct Hs].
    exists u. by rewrite app_nil_r.
  - intros (name & -> & Hname). exists (name ++ js ".mdx"). split; [done|].
    apply rep_star_some. exists name, (js ".mdx"). repeat split; [done|].
    apply lits_some. exists []. by rewrite app_nil_r.
Qed.

Lemma docPattern_truthy (file : jsstring) : docPattern file = true -> truthy file = true.
Proof. by destruct file. Qed.

Lemma filter_truthy_docs (ls : list jsstring) :
  Forall (fun f => docPattern f = true) ls -> List.filter truthy ls = ls.
Proof.
  induction 1 as [|f ls Hf _ IH]; simpl; [done|].
  by rewrite (docPattern_truthy f Hf), IH.
Qed.

Lemma filter_docs_all (ls : list jsstring) :
  Forall (fun f => docPattern f = true) (List.filter docPattern ls).
Proof.
  induction ls as [|f ls IH]; simpl; [constructor|].
  destruct (docPattern f) eqn:E; [by constructor|done].
Qed.

(** X2. When the staged diff can be read, [getStagedDocFiles] runs that one
    command, writes nothing and returns the lines of its output that are
    documentation paths, in order, duplicates included; the final
    [filter(Boolean)] removes nothing. *)
Theorem getStagedDocFiles_returns (h : host) (output : jsstring) :
  execSync h (js "git diff --cached --name-only --diff-filter=ACMR") = inl output ->
  getStagedDocFiles h =
    ([Exec (js "git diff --cached --name-only --diff-filter=ACMR")],
     Return (List.filter docPattern (split NL output))).
Proof.
  intros He. unfold getStagedDocFiles, tryCatch, exec, mbind, proc_bind, mret, proc_ret.
  rewrite He. simpl. rewrite filter_truthy_docs by apply filter_docs_all. done.
Qed.

Lemma getStagedDocFiles_returns_witness :
  getStagedDocFiles
    (gitHost (utc sampleDoc) [] []
       (text ["data/docs/a.mdx"; "README.md"; "data/docs/guide/b.mdx"; EmptyString]%string) noEnv) =
    ([Exec (js "git diff --cached --name-only --diff-filter=ACMR")],
     Return [js "data/docs/a.mdx"; js "data/docs/guide/b.mdx"]).
Proof.
  apply (getStagedDocFiles_returns _
           (text ["data/docs/a.mdx"; "README.md"; "data/docs/guide/b.mdx"; EmptyString]%string)).
  reflexivity.
Defined.

Lemma run_returns (h : host) (command output : jsstring) :
  execSync h command = inl output ->
  run h command = ([Exec command], Return (trim output)).
Proof.
  intros He. unfold run, tryCatch, exec, mbind, proc_bind, mret, proc_ret.
  by rewrite He.
Qed.

Lemma run_exits (h : host) (command message : jsstring) :
  execSync h command = inr message ->
  run h command =
    ([Exec command; ConsoleError (js "Failed to execute: " ++ command); ConsoleError message],
     Exit 1).
Proof.
  intros He. unfold run, tryCatch, exec, mbind, proc_bind, mret, proc_ret.
  by rewrite He.
Qed.

(** X3. When the merge base of the given ref cannot be computed,
    [getChangedDocFiles] ends the process with code 1 after that single
    command: [run] has already left the process when the [catch] around the
    call could act, so the merge base with [origin/main] is never tried. *)
Theorem getChangedDocFiles_no_fallback (h : host) (baseRef message : jsstring) :
  execSync h (js "git merge-base HEAD " ++ baseRef) = inr message ->
  getChangedDocFiles h baseRef =
    ([Exec (js "git merge-base HEAD " ++ baseRef);
      ConsoleError (js "Failed to execute: git merge-base HEAD " ++ baseRef);
      ConsoleError message],
     Exit 1).
Proof.
  intros He. unfold getChangedDocFiles.
  rewrite (run_exits _ _ _ He). unfold tryCatch, mbind, proc_bind. done.
Qed.

Lemma getChangedDocFiles_no_fallback_witness :
  getChangedDocFiles (gitHost (utc sampleDoc) [] [] [] noEnv) (js "origin/release") =
    ([Exec (js "git merge-base HEAD origin/release");
      ConsoleError (js "Failed to execute: git merge-base HEAD origin/release");
      ConsoleError (js "Command failed: git merge-base HEAD origin/release")],
     Exit 1).
Proof.
  apply (getChangedDocFiles_no_fallback _ (js "origin/release")
           (js "Command failed: git merge-base HEAD origin/release")).
  reflexivity.
Defined.

Lemma existsb_strEq (x : jsstring) (s : list jsstring) :
  existsb (strEq x) s = true <-> In x s.
Proof.
  rewrite existsb_exists. split.
  - intros (y & Hy & ->%strEq_spec). done.
  - intros Hx. exists x. split; [done|]. by apply strEq_spec.
Qed.

Lemma setAdd_In (s : list jsstring) (x f : jsstring) :
  In f (setAdd s x) <-> In f s \/ f = x.
Proof.
  unfold setAdd. destruct (existsb (strEq x) s) eqn:E.
  - apply existsb_strEq in E. split; [by left|]. by intros [?| ->].
  - rewrite in_app_iff. simpl. intuition auto.
Qed.

Lemma setAdd_NoDup (s : list jsstring) (x : jsstring) :
  List.NoDup s -> List.NoDup (setAdd s x).
Proof.
  intros Hs. unfold setAdd. destruct (existsb (strEq x) s) eqn:E; [done|].
  apply List.NoDup_app; [done|repeat constructor; by intros []|].
  intros y Hy [->|[]]. apply existsb_strEq in Hy. congruence.
Qed.

Lemma fold_setAdd_In (xs s : list jsstring) (f : jsstring) :
  In f (fold_left setAdd xs s) <-> In f s \/ In f xs.
Proof.
  revert s. induction xs as [|x xs IH]; intros s; simpl.
  - tauto.
  - rewrite IH, setAdd_In. intuition auto.
Qed.

Lemma fold_setAdd_NoDup (xs s : list jsstring) :
  List.NoDup s -> List.NoDup (fold_left setAdd xs s).
Proof.
  revert s. induction xs as [|x xs IH]; intros s Hs; simpl; [done|].
  by apply IH, setAdd_NoDup.
Qed.

(** X4. When the three git commands succeed, [getChangedDocFiles] runs them
    in order (the diff against the trimmed merge base, then the working
    tree), writes nothing, and returns each documentation path of the two
    outputs exactly once. *)
Theorem getChangedDocFiles_returns (h : host) (baseRef mergeBase committed working : jsstring) :
  execSync h (js "git merge-base HEAD " ++ baseRef) = inl mergeBase ->
  execSync h (js "git diff --name-only --diff-filter=ACMR " ++ trim mergeBase ++ js " HEAD")
    = inl committed ->
  execSync h (js "git diff --name-only --diff-filter=ACMR HEAD") = inl working ->
  exists changed,
    getChangedDocFiles h baseRef =
      ([Exec (js "git merge-base HEAD " ++ baseRef);
        Exec (js "git diff --name-only --diff-filter=ACMR " ++ trim mergeBase ++ js " HEAD");
        Exec (js "git diff --name-only --diff-filter=ACMR HEAD")],
       Return changed) /\
    List.NoDup changed /\
    forall f, In f changed <->
      docPattern f = true /\ (In f (split NL committed) \/ In f (split NL working)).
Proof.
  intros H1 H2 H3.
  exists (addDocFiles working (addDocFiles committed [])).
  assert (forall f, In f (addDocFiles working (addDocFiles committed [])) <->
            docPattern f = true /\ (In f (split NL committed) \/ In f (split NL working))) as Hin.
  { intros f. unfold addDocFiles. rewrite !fold_setAdd_In, !filter_In. simpl. tauto. }
  split; [|split; [|done]].
  - unfold getChangedDocFiles. rewrite (run_returns _ _ _ H1).
    unfold tryCatch, exec, mbind, proc_bind, mret, proc_ret. cbn [fst snd app].
    rewrite H2. cbn [fst snd app]. rewrite H3. cbn [fst snd app].
    rewrite filter_truthy_docs; [done|].
    apply List.Forall_forall. intros f Hf. by apply Hin in Hf as [Hf _].
  - unfold addDocFiles. apply fold_setAdd_NoDup, fold_setAdd_NoDup. constructor.
Qed.

Lemma getChangedDocFiles_returns_witness :
  exists changed,
    getChangedDocFiles
      (gitHost (utc sampleDoc)
         (text ["data/docs/a.mdx"; "README.md"; "data/docs/b.mdx"; EmptyString]%string)
         (text ["data/docs/b.mdx"; "data/docs/c.mdx"; EmptyString]%string) [] noEnv)
      (js "origin/main") =
      ([Exec (js "git merge-base HEAD origin/main");
        Exec (js "git diff --name-only --diff-filter=ACMR abc123 HEAD");
        Exec (js "git diff --name-only --diff-filter=ACMR HEAD")],
       Return changed) /\
    List.NoDup changed /\
    (In (js "data/docs/b.mdx") changed <->
       docPattern (js "data/docs/b.mdx") = true /\
       (In (js "data/docs/b.mdx")
           (split NL (text ["data/docs/a.mdx"; "README.md"; "data/docs/b.mdx"; EmptyString]%string)) \/
        In (js "data/docs/b.mdx")
           (split NL (text ["data/docs/b.mdx"; "data/docs/c.mdx"; EmptyString]%string)))).
Proof.
  destruct (getChangedDocFiles_returns
              (gitHost (utc sampleDoc)
                 (text ["data/docs/a.mdx"; "README.md"; "data/docs/b.mdx"; EmptyString]%string)
                 (text ["data/docs/b.mdx"; "data/docs/c.mdx"; EmptyString]%string) [] noEnv)
              (js "origin/main") (js "abc123" ++ [NL])
              (text ["data/docs/a.mdx"; "README.md"; "data/docs/b.mdx"; EmptyString]%string)
              (text ["data/docs/b.mdx"; "data/docs/c.mdx"; EmptyString]%string)
              eq_refl eq_refl eq_refl) as (changed & Hrun & Hnd & Hin).
  exists changed. split; [exact Hrun|]. split; [exact Hnd|]. apply Hin.
Defined.

(** ** main *)

Lemma ending_bind {A B} (p : proc A) (k : A -> proc B) :
  ending (p ≫= k) =
    match ending p with
    | Return a => ending (k a)
    | Throw message => Throw message
    | Exit code => Exit code
    end.
Proof. destruct p as [es [a|m|c]]; reflexivity. Qed.

Lemma events_bind {A B} (p : proc A) (k : A -> proc B) :
  events (p ≫= k) =
    events p ++ match ending p with Return a => events (k a) | _ => [] end.
Proof. destruct p as [es [a|m|c]]; unfold events; simpl; by rewrite ?app_nil_r. Qed.

Lemma commands_app (es1 es2 : list event) :
  commands (es1 ++ es2) = commands es1 ++ commands es2.
Proof. apply flat_map_app. Qed.

Lemma quiet_bind {A B} (p : proc A) (k : A -> proc B) :
  quiet p -> (forall a, quiet (k a)) -> quiet (p ≫= k).
Proof.
  unfold quiet. intros Hp Hk. rewrite events_bind, commands_app, Hp. simpl.
  destruct (ending p); [apply Hk|done|done].
Qed.

Lemma quiet_emitAll (es : list event) : commands es = [] -> quiet (emitAll es).
Proof. done. Qed.

Lemma commands_console_lines {X} (f : X -> event) (xs : list X) :
  (forall x, commands [f x] = []) -> commands (map f xs) = [].
Proof.
  intros Hf. induction xs as [|x xs IH]; [done|].
  change (map f (x :: xs)) with ([f x] ++ map f xs).
  by rewrite commands_app, Hf, IH.
Qed.

Ltac quiet_steps :=
  repeat first
    [ apply quiet_bind; [|intros ?]
    | match goal with |- quiet (if ?b then _ else _) => destruct b end
    | apply quiet_emitAll, commands_console_lines; intros ?; reflexivity
    | reflexivity ].

Lemma checkFile_quiet h st file : quiet (checkFile h st file).
Proof. unfold checkFile. quiet_steps. Qed.

Lemma checkFiles_quiet h changed : forall st, quiet (checkFiles h changed st).
Proof.
  induction changed as [|f changed IH]; intros st; simpl; [done|].
  apply quiet_bind; [apply checkFile_quiet|done].
Qed.

Lemma report_quiet h changed : quiet (report h changed).
Proof.
  unfold report. destruct (length changed =? 0)%nat; [done|].
  apply quiet_bind; [done|intros _].
  apply quiet_bind; [apply checkFiles_quiet|intros st].
  quiet_steps.
Qed.

Lemma checkFile_ending h st file :
  exists st', ending (checkFile h st file) = Return st' /\
    allValid st' = allValid st && passes (files h) file /\
    (warningFiles st' = [] -> warningFiles st = []).
Proof.
  unfold checkFile, passes.
  destruct (errors (validateMetadata (files h) file)) as [|e es];
    destruct (warnings (validateMetadata (files h) file)) as [|x xs]; simpl;
    eexists; (split; [reflexivity|]); simpl; rewrite ?andb_true_r, ?andb_false_r;
    split; try done; by destruct (warningFiles st).
Qed.

Lemma checkFiles_ending h changed : forall st,
  exists st', ending (checkFiles h changed st) = Return st' /\
    allValid st' = allValid st && forallb (passes (files h)) changed.
Proof.
  induction changed as [|f changed IH]; intros st; simpl.
  - exists st. by rewrite andb_true_r.
  - rewrite ending_bind.
    destruct (checkFile_ending h st f) as (st1 & -> & Hv & _).
    destruct (IH st1) as (st2 & -> & Hv2). exists st2. split; [done|].
    by rewrite Hv2, Hv, andb_assoc.
Qed.

Lemma report_ending h changed :
  ending (report h changed) =
    if forallb (passes (files h)) changed then Return tt else Exit 1.
Proof.
  unfold report. destruct changed as [|f changed]; [done|].
  change (length (f :: changed) =? 0)%nat with false. cbv iota.
  rewrite !ending_bind. cbn [ending emit snd].
  destruct (checkFiles_ending h (f :: changed) tallyStart) as (st & -> & Hv).
  replace (forallb (passes (files h)) (f :: changed)) with (allValid st)
    by (rewrite Hv; reflexivity).
  rewrite !ending_bind. cbn [ending emit snd].
  assert (forall (b : bool) (p : proc unit), ending p = Return tt ->
            ending (if b then p else mret tt) = Return tt) as Hif.
  { intros [] p Hp; [done|reflexivity]. }
  rewrite Hif.
  2:{ rewrite !ending_bind. reflexivity. }
  destruct (allValid st); cbn [negb]; rewrite ?ending_bind; reflexivity.
Qed.

Lemma main_unfold h : main h = discovery h ≫= report h.
Proof. reflexivity. Qed.

(** X5. Once the changed files are known, [main] ends the process with
    code 1 exactly when one of them has an error, and returns otherwise (also
    when there is no file to check): warnings never change how it ends. *)
Theorem main_exit_status (h : host) (es : list event) (changed : list jsstring) :
  discovery h = (es, Return changed) ->
  ending (main h) = if forallb (passes (files h)) changed then Return tt else Exit 1.
Proof.
  intros Hd. rewrite main_unfold, ending_bind, Hd. simpl. apply report_ending.
Qed.

Lemma main_exit_status_witness :
  ending (main (gitHost (utc invalidDateDoc) [] [] (js "data/docs/a.mdx") preCommitEnv)) = Exit 1.
Proof.
  exact (main_exit_status
           (gitHost (utc invalidDateDoc) [] [] (js "data/docs/a.mdx") preCommitEnv)
           [Exec (js "git diff --cached --name-only --diff-filter=ACMR")]
           [js "data/docs/a.mdx"] eq_refl).
Defined.

Lemma discovery_ending h :
  (exists changed, ending (discovery h) = Return changed) \/ ending (discovery h) = Exit 1.
Proof.
  unfold discovery. destruct (isPreCommit h).
  - unfold getStagedDocFiles, tryCatch, exec, mbind, proc_bind, mret, proc_ret.
    destruct (execSync h _); cbn [fst snd ending]; eauto.
  - unfold getChangedDocFiles.
    destruct (execSync h (js "git merge-base HEAD " ++ baseBranch h)) as [mb|m] eqn:E1.
    2:{ rewrite (run_exits _ _ _ E1). by right. }
    rewrite (run_returns _ _ _ E1).
    unfold tryCatch, exec, mbind, proc_bind, mret, proc_ret. cbn [fst snd app].
    destruct (execSync h (js "git diff --name-only --diff-filter=ACMR " ++ trim mb ++ js " HEAD"));
      cbn [fst snd app ending]; [|by right].
    destruct (execSync h (js "git diff --name-only --diff-filter=ACMR HEAD"));
      cbn [fst snd app ending]; eauto.
Qed.

(** X6. [main] never ends with an uncaught exception, and the only exit
    code it uses is 1. *)
Theorem main_returns_or_exits_1 (h : host) :
  ending (main h) = Return tt \/ ending (main h) = Exit 1.
Proof.
  rewrite main_unfold, ending_bind.
  destruct (discovery_ending h) as [[changed ->]| ->]; [|by right].
  rewrite report_ending. destruct (forallb _ _); auto.
Qed.

(** X7. In pre-commit mode the staged diff is the only command [main]
    runs, whether it succeeds or not: no merge base is computed. *)
Theorem main_pre_commit_commands (h : host) :
  isPreCommit h = true ->
  commands (events (main h)) = [js "git diff --cached --name-only --diff-filter=ACMR"].
Proof.
  intros Hp. rewrite main_unfold, events_bind, commands_app.
  unfold discovery. rewrite Hp.
  assert (commands (events (getStagedDocFiles h)) =
          [js "git diff --cached --name-only --diff-filter=ACMR"]) as ->.
  { unfold getStagedDocFiles, tryCatch, exec, mbind, proc_bind, mret, proc_ret.
    by destruct (execSync h _). }
  destruct (ending (getStagedDocFiles h)); [|done|done].
  by rewrite report_quiet.
Qed.

Lemma main_pre_commit_commands_witness :
  commands (events (main (gitHost (utc invalidDateDoc) [] [] (js "data/docs/a.mdx") preCommitEnv))) =
    [js "git diff --cached --name-only --diff-filter=ACMR"].
Proof. apply main_pre_commit_commands. reflexivity. Defined.

(** ** More on the rules of validateMetadata *)

Lemma frontmatterOf_no_delimiter (content : jsstring) :
  noDelimiter (split NL content) -> frontmatterOf content = [].
Proof.
  intros Hno. unfold frontmatterOf.
  rewrite <- (app_nil_r (split NL content)), scanLines_before by done. done.
Qed.

(** X8. A readable file without any delimiter line has no field at all: the
    result is exactly the two errors [missing date] and [missing title] and
    the warning [missing tags]. *)
Theorem validateMetadata_no_frontmatter w filePath content :
  fs w filePath = Readable content ->
  noDelimiter (split NL content) ->
  validateMetadata w filePath =
    {| errors := ["missing date"; "missing title"]%string;
       warnings := ["missing tags"%string] |}.
Proof.
  intros Hf Hno. rewrite (validateMetadata_readable _ _ _ Hf).
  rewrite (frontmatterOf_no_delimiter _ Hno). reflexivity.
Qed.

Lemma validateMetadata_no_frontmatter_witness :
  validateMetadata (utc plainDoc) (js "doc.mdx") =
    {| errors := ["missing date"; "missing title"]%string;
       warnings := ["missing tags"%string] |}.
Proof.
  apply (validateMetadata_no_frontmatter (utc plainDoc) (js "doc.mdx") plainDoc eq_refl).
  repeat constructor.
Defined.

Lemma dateIssues_no_title_issue w m e :
  isTitleIssue e = true -> ~ In e (dateIssues w m).
Proof.
  intros He Hin. pose proof (dateIssues_class w m) as Hall.
  rewrite List.Forall_forall in Hall. apply (date_title_disjoint e); [by apply Hall|done].
Qed.

(** X9. The title rule on a readable file: [missing title] is reported
    exactly when the map has no title, and [title cannot be empty] exactly
    when the trimmed title is empty or is one of the two-character strings
    made of two double or two single quotes. *)
Theorem validateMetadata_title_rule w filePath content :
  fs w filePath = Readable content ->
  let es := errors (validateMetadata w filePath) in
  match parseFields (frontmatterOf content) !! js "title" with
  | None => In "missing title"%string es /\ ~ In "title cannot be empty"%string es
  | Some v =>
      ~ In "missing title"%string es /\
      (In "title cannot be empty"%string es <->
       trim v = [] \/ trim v = emptyDouble \/ trim v = emptySingle)
  end.
Proof.
  intros Hf es. unfold es. rewrite (validateMetadata_readable _ _ _ Hf). simpl.
  set (m := parseFields (frontmatterOf content)).
  assert (forall e, isTitleIssue e = true ->
            In e (dateIssues w m ++ titleIssues m) <-> In e (titleIssues m)) as Hin.
  { intros e He. rewrite in_app_iff. split; [|by right].
    intros [Hd|Ht]; [|done]. by apply dateIssues_no_title_issue in Hd. }
  unfold titleIssues, titleCheck in Hin. unfold titleIssues, titleCheck.
  destruct (m !! js "title") as [v|]; rewrite !Hin by reflexivity; simpl.
  - pose proof (strEq_spec (trim v) []) as H1.
    pose proof (strEq_spec (trim v) emptyDouble) as H2.
    pose proof (strEq_spec (trim v) emptySingle) as H3.
    destruct (strEq (trim v) []), (strEq (trim v) emptyDouble),
      (strEq (trim v) emptySingle); simpl; intuition discriminate.
  - intuition discriminate.
Qed.

Lemma validateMetadata_title_rule_witness :
  In "title cannot be empty"%string
     (errors (validateMetadata
                (utc (text ["---"; "title:  '' "; "date: 2024-01-15"; "---"]%string))
                (js "doc.mdx"))).
Proof.
  pose proof (validateMetadata_title_rule
                (utc (text ["---"; "title:  '' "; "date: 2024-01-15"; "---"]%string))
                (js "doc.mdx") _ eq_refl) as H.
  change (parseFields _ !! js "title") with (Some (js "''")) in H.
  apply H. right. right. reflexivity.
Defined.

(** X10. A readable file has no error exactly when it has a date that,
    without its quote characters and trimmed, has the shape of the date
    pattern, is a date for [new Date] and is not after the local midnight of
    today, and a title that, trimmed, is neither empty nor one of the two
    empty-string literals. *)
Theorem validateMetadata_passes_iff w filePath content :
  fs w filePath = Readable content ->
  let m := parseFields (frontmatterOf content) in
  errors (validateMetadata w filePath) = [] <->
  (exists dv t,
     m !! js "date" = Some dv /\
     isYMD (trim (removeQuotes dv)) /\
     newDate w (trim (removeQuotes dv)) = Some t /\
     dateGt (Some t) (setHours0 w (now w)) = false) /\
  (exists tv,
     m !! js "title" = Some tv /\
     trim tv <> [] /\ trim tv <> emptyDouble /\ trim tv <> emptySingle).
Proof.
  intros Hf m. rewrite (validateMetadata_readable _ _ _ Hf). fold m. simpl.
  transitivity (dateIssues w m = [] /\ titleIssues m = []).
  { split; [by apply app_eq_nil|]. by intros [-> ->]. }
  assert (dateIssues w m = [] <->
          exists dv t, m !! js "date" = Some dv /\ isYMD (trim (removeQuotes dv)) /\
            newDate w (trim (removeQuotes dv)) = Some t /\
            dateGt (Some t) (setHours0 w (now w)) = false) as ->.
  { unfold dateIssues, dateCheck.
    destruct (m !! js "date") as [dv|]; [|split; [done|by intros (? & ? & ? & _)]].
    pose proof (datePattern_spec (trim (removeQuotes dv))) as Hp.
    destruct (datePattern (trim (removeQuotes dv))); cbn [negb].
    - destruct (newDate w (trim (removeQuotes dv))) as [t|] eqn:En.
      + destruct (dateGt (Some t) (setHours0 w (now w))) eqn:Eg.
        * split; [done|]. intros (dv' & t' & [= <-] & _ & Hn & Hg).
          rewrite En in Hn. injection Hn as <-. congruence.
        * split; [|done]. intros _. exists dv, t. repeat split; try done. by apply Hp.
      + split; [done|]. intros (dv' & t' & [= <-] & _ & Hn & _). congruence.
    - split; [done|]. intros (dv' & t' & [= <-] & Hy & _). apply Hp in Hy. done. }
  assert (titleIssues m = [] <->
          exists tv, m !! js "title" = Some tv /\
            trim tv <> [] /\ trim tv <> emptyDouble /\ trim tv <> emptySingle) as ->; [|done].
  unfold titleIssues, titleCheck.
  destruct (m !! js "title") as [tv|]; [|split; [done|by intros (? & ? & _)]].
  pose proof (strEq_spec (trim tv) []) as H1.
  pose proof (strEq_spec (trim tv) emptyDouble) as H2.
  pose proof (strEq_spec (trim tv) emptySingle) as H3.
  destruct (strEq (trim tv) []), (strEq (trim tv) emptyDouble),
    (strEq (trim tv) emptySingle); simpl; split; try done;
    try (intros (? & [= <-] & ? & ? & ?); intuition congruence).
  intros _. exists tv. intuition congruence.
Qed.

Lemma validateMetadata_passes_iff_witness :
  errors (validateMetadata (utc emptyTagsDoc) (js "doc.mdx")) = [].
Proof.
  apply (validateMetadata_passes_iff (utc emptyTagsDoc) (js "doc.mdx") emptyTagsDoc eq_refl).
  split.
  - exists (js "2024-01-15"), 1705276800000. repeat split; try reflexivity.
    apply datePattern_spec. reflexivity.
  - exists (js "Notes"). repeat split; try reflexivity; discriminate.
Defined.

(** ** What the field map holds *)

Lemma skipWhile_length p (s : jsstring) : (length (skipWhile p s) <= length s)%nat.
Proof. induction s as [|c s IH]; simpl; [done|]. destruct (p c); simpl; lia. Qed.

Lemma skipWhile_fixed p (s : jsstring) :
  skipWhile p s = s <-> s = [] \/ exists c s', s = c :: s' /\ p c = false.
Proof.
  destruct s as [|c s]; simpl.
  - split; [by left|done].
  - destruct (p c) eqn:Hc.
    + split.
      * intros Hs. pose proof (skipWhile_length p s) as Hl. rewrite Hs in Hl. simpl in Hl. lia.
      * intros [?|(c' & s' & [= <- <-] & Hc')]; congruence.
    + split; [|done]. intros _. right. by exists c, s.
Qed.

Lemma skipWhile_idem p (s : jsstring) : skipWhile p (skipWhile p s) = skipWhile p s.
Proof.
  apply skipWhile_fixed. destruct (skipWhile p s) as [|c s'] eqn:E; [by left|].
  right. exists c, s'. split; [done|]. by apply skipWhile_head in E.
Qed.

Lemma trimEnd_prefix (s : jsstring) :
  exists t, s = trimEnd s ++ t /\ forallb isWhiteSpace t = true.
Proof.
  unfold trimEnd. exists (rev (takeWhile isWhiteSpace (rev s))). split.
  - rewrite <- rev_app_distr, takeWhile_skipWhile. by rewrite rev_involutive.
  - apply forallb_forall. intros x Hx%in_rev.
    pose proof (takeWhile_all isWhiteSpace (rev s)) as Hall.
    rewrite forallb_forall in Hall. by apply Hall.
Qed.

Lemma trimEnd_idem (s : jsstring) : trimEnd (trimEnd s) = trimEnd s.
Proof. unfold trimEnd. by rewrite rev_involutive, skipWhile_idem. Qed.

Lemma trimStart_trimEnd (s : jsstring) :
  trimStart s = s -> trimStart (trimEnd s) = trimEnd s.
Proof.
  unfold trimStart. intros Hs. apply skipWhile_fixed.
  destruct (trimEnd_prefix s) as (t & Hst & _).
  destruct (trimEnd s) as [|c u]; [by left|]. right. exists c, u. split; [done|].
  apply skipWhile_fixed in Hs as [Hs|(c' & s' & Hs & Hc)]; [by rewrite Hs in Hst|].
  rewrite Hs in Hst. by injection Hst as -> _.
Qed.

(** [trim] gives a string that [trim] leaves as it is. *)
Lemma trim_idem (s : jsstring) : trim (trim s) = trim s.
Proof.
  unfold trim. rewrite trimStart_trimEnd by apply skipWhile_idem. apply trimEnd_idem.
Qed.

Lemma forallb_skipWhile q p (s : jsstring) :
  forallb q s = true -> forallb q (skipWhile p s) = true.
Proof.
  induction s as [|c s IH]; simpl; [done|].
  intros [Hc Hs]%andb_true_iff. destruct (p c); [auto|]. simpl. by rewrite Hc, Hs.
Qed.

Lemma forallb_rev q (s : jsstring) : forallb q s = true -> forallb q (rev s) = true.
Proof.
  rewrite !forallb_forall. intros Hs x Hx%in_rev. by apply Hs.
Qed.

Lemma forallb_trim q (s : jsstring) : forallb q s = true -> forallb q (trim s) = true.
Proof.
  intros Hs. unfold trim, trimEnd, trimStart.
  by apply forallb_rev, forallb_skipWhile, forallb_rev, forallb_skipWhile.
Qed.

Lemma fold_setField_origin (ls : list jsstring) : forall (m : gmap jsstring jsstring) key v,
  fold_left setField ls m !! key = Some v ->
  m !! key = Some v \/
  exists line value, In line ls /\ fieldPattern line = Some (key, value) /\ v = trim value.
Proof.
  induction ls as [|l ls IH]; intros m key v; simpl; [by left|].
  intros Hv. apply IH in Hv as [Hv|(line & value & Hin & Hline & ->)].
  - unfold setField in Hv. destruct (fieldPattern l) as [[k x]|] eqn:El; [|by left].
    destruct (decide (k = key)) as [->|Hne].
    + rewrite lookup_insert_eq in Hv. injection Hv as <-.
      right. exists l, x. split; [by left|done].
    + rewrite lookup_insert_ne in Hv by done. by left.
  - right. exists line, value. split; [by right|done].
Qed.

(** X11. Every entry of the field map comes from a line of the frontmatter
    that the field pattern accepts: its key is a non-empty run of word
    characters, and its value is the trimmed capture of that line, so it has
    no white space at either end and no line terminator. *)
Theorem parseFields_entries (frontmatter key v : jsstring) :
  parseFields frontmatter !! key = Some v ->
  (exists line value,
     In line (split NL frontmatter) /\ fieldPattern line = Some (key, value) /\
     v = trim value) /\
  key <> [] /\ forallb isWord key = true /\
  trim v = v /\ forallb isDot v = true.
Proof.
  intros Hv. unfold parseFields in Hv.
  apply fold_setField_origin in Hv as [Hv|(line & value & Hin & Hline & ->)]; [done|].
  split; [by exists line, value|].
  apply fieldPattern_spec in Hline as (Hne & Hw & ws & _ & _ & _ & Hd).
  repeat split; [done|done|apply trim_idem|by apply forallb_trim].
Qed.

Lemma parseFields_entries_witness :
  trim (js "Second") = js "Second" /\ forallb isDot (js "Second") = true.
Proof.
  destruct (parseFields_entries (frontmatterOf twoTitlesDoc) (js "title") (js "Second") eq_refl)
    as (_ & _ & _ & Ht & Hd).
  split; [exact Ht|exact Hd].
Defined.

(** ** Carriage returns *)

Lemma fieldPattern_carriage_return (line key value : jsstring) :
  fieldPattern (line ++ [13%N]) = Some (key, value) -> value = [].
Proof.
  intros (_ & _ & ws & Hl & _ & _ & Hd)%fieldPattern_spec.
  induction value as [|x v' _] using rev_ind; [done|].
  exfalso. rewrite forallb_app in Hd. apply andb_true_iff in Hd as [_ Hd].
  replace (key ++ ch ":" :: ws ++ v' ++ [x]) with ((key ++ ch ":" :: ws ++ v') ++ [x]) in Hl
    by (rewrite <- !app_assoc; simpl; by rewrite <- app_assoc).
  apply app_inj_tail in Hl as [_ <-]. done.
Qed.

(** X12. When every line of the frontmatter ends in a carriage return, as
    in a file with Windows line endings, no field keeps a value: the date is
    reported missing or malformed and the title missing or empty, so the file
    never passes. *)
Theorem validateMetadata_carriage_returns w filePath content :
  fs w filePath = Readable content ->
  Forall (fun l => exists l', l = l' ++ [13%N]) (split NL (frontmatterOf content)) ->
  let es := errors (validateMetadata w filePath) in
  (In "missing date"%string es \/ In "invalid date format - use YYYY-MM-DD"%string es) /\
  (In "missing title"%string es \/ In "title cannot be empty"%string es).
Proof.
  intros Hf Hcr es. unfold es. rewrite (validateMetadata_readable _ _ _ Hf). simpl.
  set (m := parseFields (frontmatterOf content)).
  assert (forall key v, m !! key = Some v -> v = []) as Hempty.
  { intros key v Hv. unfold m, parseFields in Hv.
    apply fold_setField_origin in Hv as [Hv|(line & value & Hin & Hline & ->)]; [done|].
    rewrite List.Forall_forall in Hcr. destruct (Hcr _ Hin) as [l' ->].
    by rewrite (fieldPattern_carriage_return _ _ _ Hline). }
  rewrite !in_app_iff. unfold dateIssues, dateCheck, titleIssues, titleCheck. split.
  - destruct (m !! js "date") as [v|] eqn:Ev.
    + rewrite (Hempty _ _ Ev). right. left. by left.
    + left. left. by left.
  - destruct (m !! js "title") as [v|] eqn:Ev.
    + rewrite (Hempty _ _ Ev). right. right. by left.
    + left. right. by left.
Qed.

Lemma validateMetadata_carriage_returns_witness :
  errors (validateMetadata (utc crlfDoc) (js "doc.mdx")) =
    ["missing date"; "missing title"]%string /\
  (In "missing date"%string (errors (validateMetadata (utc crlfDoc) (js "doc.mdx"))) \/
   In "invalid date format - use YYYY-MM-DD"%string
      (errors (validateMetadata (utc crlfDoc) (js "doc.mdx")))).
Proof.
  split; [reflexivity|].
  apply (validateMetadata_carriage_returns (utc crlfDoc) (js "doc.mdx") crlfDoc eq_refl).
  change (split NL (frontmatterOf crlfDoc))
    with [js "title: Notes" ++ [13%N]; js "date: 2024-01-15" ++ [13%N]].
  constructor; [by eexists|]. constructor; [by eexists|]. constructor.
Defined.

(** ** Legal calendar dates *)

Lemma digit_range (c : char) : isDigit c = true -> 0 <= digit c <= 9.
Proof.
  unfold isDigit, digit. intros [H1 H2]%andb_true_iff.
  apply N.leb_le in H1, H2. lia.
Qed.

Lemma DayFromYear_range (y : Z) : 0 <= y <= 9999 -> -719528 <= DayFromYear y <= 2932532.
Proof. intros Hy. unfold DayFromYear. Z.div_mod_to_equations. lia. Qed.

Lemma daysBeforeMonth_range (y m : Z) : 0 <= m <= 11 -> 0 <= daysBeforeMonth y m <= 335.
Proof.
  intros Hm. unfold daysBeforeMonth, monthLengths.
  assert (m = 0 \/ m = 1 \/ m = 2 \/ m = 3 \/ m = 4 \/ m = 5 \/ m = 6 \/ m = 7 \/ m = 8
          \/ m = 9 \/ m = 10 \/ m = 11) as Hc by lia.
  destruct (isLeapYear y);
    repeat (destruct Hc as [->|Hc]; [simpl; lia|]); subst m; simpl; lia.
Qed.

Lemma daysInMonth_range (y m : Z) : daysInMonth y m <= 31.
Proof.
  unfold daysInMonth, monthLengths. generalize (Z.to_nat m) as n. intros n.
  destruct (isLeapYear y); do 12 (destruct n as [|n]; [simpl; lia|]);
    destruct n; simpl; lia.
Qed.

Lemma MakeDay_range (y m d : Z) :
  0 <= y <= 9999 -> 0 <= m <= 11 -> 1 <= d <= 31 ->
  -719528 <= MakeDay y m d <= 2932898.
Proof.
  intros Hy Hm Hd. unfold MakeDay.
  replace (m / 12) with 0 by (Z.div_mod_to_equations; lia).
  replace (m mod 12) with m by (Z.div_mod_to_equations; lia).
  rewrite Z.add_0_r.
  pose proof (DayFromYear_range y Hy). pose proof (daysBeforeMonth_range y m Hm). lia.
Qed.

(** A legal date has the shape of the date pattern and a time value far
    inside the range of [TimeClip]. *)
Lemma isoDate_legal (s : jsstring) (t : Z) :
  isoDate s = Some t -> datePattern s = true /\ Z.abs t <= 8640000000000000.
Proof.
  rewrite datePattern_unfold. unfold isoDate.
  destruct s as [|y1 [|y2 [|y3 [|y4 [|h1 [|m1 [|m2 [|h2 [|d1 [|d2 [|x s]]]]]]]]]]]; try done.
  destruct (forallb isDigit [y1; y2; y3; y4; m1; m2; d1; d2] && (h1 =? ch "-")%N
            && (h2 =? ch "-")%N) eqn:Hshape; [|done].
  apply andb_true_iff in Hshape as [[Hdig Hh1]%andb_true_iff Hh2].
  cbn [forallb] in Hdig. rewrite !andb_true_iff in Hdig.
  destruct Hdig as (D1 & D2 & D3 & D4 & D5 & D6 & D7 & D8 & _).
  set (y := 1000 * digit y1 + 100 * digit y2 + 10 * digit y3 + digit y4).
  set (m := 10 * digit m1 + digit m2). set (d := 10 * digit d1 + digit d2).
  destruct ((1 <=? m) && (m <=? 12) && (1 <=? d) && (d <=? daysInMonth y (m - 1))) eqn:Hr;
    [|done].
  intros [= <-]. split.
  - cbn [forallb]. by rewrite D1, D2, D3, D4, D5, D6, D7, D8, Hh1, Hh2.
  - rewrite !andb_true_iff in Hr. destruct Hr as [[[Hm1 Hm2] Hd1] Hd2].
    apply Z.leb_le in Hm1, Hm2, Hd1, Hd2.
    pose proof (digit_range _ D1). pose proof (digit_range _ D2).
    pose proof (digit_range _ D3). pose proof (digit_range _ D4).
    pose proof (daysInMonth_range y (m - 1)).
    assert (-719528 <= MakeDay y (m - 1) d <= 2932898) as Hday
      by (apply MakeDay_range; unfold y; lia).
    unfold MakeDate, msPerDay. lia.
Qed.

Lemma dateIssues_legal (w : world) (m : gmap jsstring jsstring) (v : jsstring) (t : Z) :
  m !! js "date" = Some v ->
  isoDate (trim (removeQuotes v)) = Some t ->
  dateIssues w m =
    if dateGt (Some t) (setHours0 w (now w))
    then ["date cannot be in the future"%string] else [].
Proof.
  intros Hv Hiso. destruct (isoDate_legal _ _ Hiso) as [Hpat Hclip].
  unfold dateIssues, dateCheck, newDate, Date_parse, TimeClip.
  rewrite Hv, Hpat, Hiso. cbn [negb].
  destruct (Z.gtb_spec (Z.abs t) 8640000000000000); [lia|].
  by destruct (dateGt (Some t) (setHours0 w (now w))).
Qed.

(** X13. When the date value, without its quote characters and trimmed, is
    a legal calendar date (month 1 to 12, day within the month), the date is
    reported neither missing nor malformed nor invalid, whatever the engine:
    [date cannot be in the future] is the only date error left. *)
Theorem validateMetadata_legal_date w filePath content v t :
  fs w filePath = Readable content ->
  parseFields (frontmatterOf content) !! js "date" = Some v ->
  isoDate (trim (removeQuotes v)) = Some t ->
  let es := errors (validateMetadata w filePath) in
  ~ In "missing date"%string es /\
  ~ In "invalid date format - use YYYY-MM-DD"%string es /\
  ~ In "invalid date value"%string es /\
  (In "date cannot be in the future"%string es <->
   dateGt (Some t) (setHours0 w (now w)) = true).
Proof.
  intros Hf Hv Hiso es. unfold es. rewrite (validateMetadata_readable _ _ _ Hf). cbn [errors].
  set (m := parseFields (frontmatterOf content)) in *.
  assert (forall e, isDateIssue e = true ->
            In e (dateIssues w m ++ titleIssues m) <-> In e (dateIssues w m)) as Hin.
  { intros e He. rewrite in_app_iff. split; [|by left].
    intros [Hd|Ht]; [done|]. by apply titleIssues_no_date_issue in Ht. }
  rewrite !Hin by reflexivity.
  rewrite (dateIssues_legal w m v t Hv Hiso).
  destruct (dateGt (Some t) (setHours0 w (now w))); cbn [In]; intuition discriminate.
Qed.

Lemma validateMetadata_legal_date_witness :
  ~ In "invalid date value"%string (errors (validateMetadata (utc sampleDoc) (js "doc.mdx"))).
Proof.
  assert (isoDate (trim (removeQuotes (js "2026-11-02"))) = Some 1793577600000) as Hiso
    by (by vm_compute).
  destruct (validateMetadata_legal_date (utc sampleDoc) (js "doc.mdx") sampleDoc
              (js "2026-11-02") 1793577600000 eq_refl eq_refl Hiso) as (_ & _ & H & _).
  exact H.
Defined.

(** ** Every case of extractFrontmatter *)

Lemma first_delimiter (ls : list jsstring) :
  noDelimiter ls \/
  exists pre d rest, ls = pre ++ d :: rest /\ noDelimiter pre /\ isDelimiter d = true.
Proof.
  induction ls as [|l ls IH]; [left; constructor|].
  destruct (isDelimiter l) eqn:El.
  - right. exists [], l, ls. repeat split; [constructor|done].
  - destruct IH as [Hno|(pre & d & rest & -> & Hpre & Hd)].
    + left. by constructor.
    + right. exists (l :: pre), d, rest. repeat split; [by constructor|done].
Qed.

(** X14. What [extractFrontmatter] returns for a readable file, in every
    case: nothing when no line is a delimiter; otherwise the lines that
    follow the first delimiter, up to the next delimiter or to the end of the
    file.  The block is a run of consecutive lines of the file and holds no
    delimiter. *)
Theorem extractFrontmatter_cases w filePath content :
  fs w filePath = Readable content ->
  (noDelimiter (split NL content) /\ extractFrontmatter w filePath = Some []) \/
  exists pre d block post,
    split NL content = pre ++ d :: block ++ post /\
    noDelimiter pre /\ isDelimiter d = true /\ noDelimiter block /\
    (post = [] \/ exists d2 post', post = d2 :: post' /\ isDelimiter d2 = true) /\
    extractFrontmatter w filePath = Some (join [NL] block).
Proof.
  intros Hf. rewrite (extractFrontmatter_readable _ _ _ Hf). unfold frontmatterOf.
  destruct (first_delimiter (split NL content)) as [Hno|(pre & d & rest & -> & Hpre & Hd)].
  - left. split; [done|].
    rewrite <- (app_nil_r (split NL content)), scanLines_before by done. done.
  - right. rewrite scanLines_before, scanLines_open by done.
    destruct (first_delimiter rest) as [Hno|(mid & d2 & post & -> & Hmid & Hd2)].
    + exists pre, d, rest, []. rewrite app_nil_r. repeat split; try done; [by left|].
      rewrite <- (app_nil_r rest), scanLines_inside by done. simpl. by rewrite app_nil_r.
    + exists pre, d, mid, (d2 :: post). repeat split; try done.
      * right. by exists d2, post.
      * by rewrite scanLines_inside, scanLines_close.
Qed.

Lemma extractFrontmatter_cases_witness :
  (noDelimiter (split NL thematicBreakDoc) /\
   extractFrontmatter (utc thematicBreakDoc) (js "doc.mdx") = Some []) \/
  exists pre d block post,
    split NL thematicBreakDoc = pre ++ d :: block ++ post /\
    noDelimiter pre /\ isDelimiter d = true /\ noDelimiter block /\
    (post = [] \/ exists d2 post', post = d2 :: post' /\ isDelimiter d2 = true) /\
    extractFrontmatter (utc thematicBreakDoc) (js "doc.mdx") = Some (join [NL] block).
Proof.
  apply (extractFrontmatter_cases (utc thematicBreakDoc) (js "doc.mdx") thematicBreakDoc eq_refl).
Defined.

(** ** The date that main prints as its example *)

(** ** The date that main prints as its example *)

Lemma DayFromYear_estimate (y : Z) :
  146097 * (y - 1970) - 600 <= 400 * DayFromYear y <= 146097 * (y - 1970) + 600.
Proof. unfold DayFromYear. Z.div_mod_to_equations. lia. Qed.

Lemma DayFromYear_next (y : Z) :
  DayFromYear (y + 1) = DayFromYear y + 365 + (if isLeapYear y then 1 else 0).
Proof.
  unfold DayFromYear, isLeapYear.
  destruct (Z.eqb_spec (y mod 4) 0), (Z.eqb_spec (y mod 100) 0), (Z.eqb_spec (y mod 400) 0);
    simpl; Z.div_mod_to_equations; lia.
Qed.

Lemma yearOfDay_spec (day : Z) :
  DayFromYear (yearOfDay day) <= day < DayFromYear (yearOfDay day + 1).
Proof.
  unfold yearOfDay. set (y0 := 1970 + 400 * day / 146097).
  assert (146097 * (y0 - 1970) <= 400 * day < 146097 * (y0 - 1970) + 146097) as Hy0
    by (unfold y0; Z.div_mod_to_equations; lia).
  pose proof (DayFromYear_estimate (y0 - 1)). pose proof (DayFromYear_estimate (y0 + 2)).
  pose proof (DayFromYear_next y0). pose proof (DayFromYear_next (y0 - 1)).
  pose proof (DayFromYear_next (y0 + 1)).
  replace (y0 - 1 + 1) with y0 in * by lia. replace (y0 + 1 + 1) with (y0 + 2) in * by lia.
  destruct (Z.leb_spec (DayFromYear (y0 + 1)) day).
  - replace (y0 + 1 + 1) with (y0 + 2) by lia. lia.
  - destruct (Z.ltb_spec day (DayFromYear y0)).
    + replace (y0 - 1 + 1) with y0 by lia. lia.
    + lia.
Qed.

Lemma monthOfDay_spec (y dayWithinYear : Z) :
  0 <= dayWithinYear < 365 + (if isLeapYear y then 1 else 0) ->
  let m := monthOfDay (isLeapYear y) dayWithinYear in
  0 <= m <= 11 /\
  daysBeforeMonth y m <= dayWithinYear < daysBeforeMonth y m + daysInMonth y m.
Proof.
  intros Hd. unfold monthOfDay, daysBeforeMonth, daysInMonth, monthLengths.
  destruct (isLeapYear y);
    repeat match goal with
           | |- context [?a <? ?b] => destruct (Z.ltb_spec a b)
           end; simpl; lia.
Qed.

(** [civil] is the inverse of [MakeDay]. *)
Lemma civil_spec (day : Z) :
  MakeDay (fst (fst (civil day))) (snd (fst (civil day))) (snd (civil day)) = day /\
  0 <= snd (fst (civil day)) <= 11 /\
  1 <= snd (civil day) <= daysInMonth (fst (fst (civil day))) (snd (fst (civil day))).
Proof.
  unfold civil. cbn [fst snd].
  pose proof (yearOfDay_spec day) as Hy. rewrite DayFromYear_next in Hy.
  set (y := yearOfDay day) in *. set (d := day - DayFromYear y).
  destruct (monthOfDay_spec y d) as [Hm Hd]; [unfold d; lia|].
  set (m := monthOfDay (isLeapYear y) d) in *.
  split; [|split; [done|lia]].
  unfold MakeDay.
  replace (m / 12) with 0 by (Z.div_mod_to_equations; lia).
  replace (m mod 12) with m by (Z.div_mod_to_equations; lia).
  rewrite Z.add_0_r. unfold d. lia.
Qed.

Lemma digit_char (r : Z) :
  0 <= r <= 9 -> isDigit (Z.to_N (48 + r)) = true /\ digit (Z.to_N (48 + r)) = r.
Proof.
  intros Hr. unfold isDigit, digit. split; [|lia].
  apply andb_true_iff. split; apply N.leb_le; lia.
Qed.

Lemma mod_10_range (v : Z) : 0 <= v mod 10 <= 9.
Proof. Z.div_mod_to_equations. lia. Qed.

Lemma digits_not (c : char) (n : nat) : forall v,
  isDigit c = false -> Forall (fun x => x <> c) (digits n v).
Proof.
  induction n as [|n IH]; intros v Hc; simpl; [constructor|].
  apply Forall_app. split; [by apply IH|]. constructor; [|constructor].
  intros <-. destruct (digit_char (v mod 10) (mod_10_range v)). congruence.
Qed.

Lemma split_cons_sep (sep : char) (l rest : jsstring) :
  Forall (fun c => c <> sep) l -> split sep (l ++ sep :: rest) = l :: split sep rest.
Proof.
  induction 1 as [|c l Hc Hl IH]; simpl; [by rewrite N.eqb_refl|].
  apply N.eqb_neq in Hc. by rewrite Hc, IH.
Qed.

(** The example is the date part of the ISO text: year, month and day of the
    current UTC day. *)
Lemma exampleDate_eq (w : world) :
  0 <= YearFromTime (now w) <= 9999 ->
  exampleDate w =
    digits 4 (YearFromTime (now w)) ++ js "-" ++ digits 2 (MonthFromTime (now w) + 1)
    ++ js "-" ++ digits 2 (DateFromTime (now w)).
Proof.
  intros [Hy1 Hy2]. unfold exampleDate, toISOString.
  apply Z.leb_le in Hy1, Hy2. rewrite Hy1, Hy2. cbn [andb].
  set (y := digits 4 _). set (m := digits 2 _). set (d := digits 2 (DateFromTime _)).
  set (rest := digits 2 (HourFromTime _) ++ _).
  replace (y ++ js "-" ++ m ++ js "-" ++ d ++ js "T" ++ rest)
    with ((y ++ js "-" ++ m ++ js "-" ++ d) ++ ch "T" :: rest)
    by (by rewrite <- !app_assoc).
  rewrite split_cons_sep; [done|].
  assert (Forall (fun c => c <> ch "T") (js "-")) as Hh by (by repeat constructor).
  repeat (apply Forall_app; split; [done || by apply digits_not|]).
  by apply digits_not.
Qed.

Lemma isoDate_digits (y m d : Z) :
  0 <= y <= 9999 -> 1 <= m <= 12 -> 1 <= d <= daysInMonth y (m - 1) ->
  isoDate (digits 4 y ++ js "-" ++ digits 2 m ++ js "-" ++ digits 2 d) =
    Some (MakeDate (MakeDay y (m - 1) d) 0).
Proof.
  intros Hy Hm Hd. pose proof (daysInMonth_range y (m - 1)) as Hdim.
  cbn [digits app]. change (js "-") with [ch "-"]. cbn [app]. unfold isoDate.
  cbn [forallb].
  repeat match goal with
         | |- context [Z.to_N (48 + ?r mod 10)] =>
             let E1 := fresh in let E2 := fresh in
             destruct (digit_char _ (mod_10_range r)) as [E1 E2];
             rewrite ?E1, ?E2; clear E1 E2
         end.
  rewrite N.eqb_refl. cbn [andb].
  replace (1000 * ((y / 10 / 10 / 10) mod 10) + 100 * ((y / 10 / 10) mod 10)
           + 10 * ((y / 10) mod 10) + y mod 10) with y by (Z.div_mod_to_equations; lia).
  replace (10 * ((m / 10) mod 10) + m mod 10) with m by (Z.div_mod_to_equations; lia).
  replace (10 * ((d / 10) mod 10) + d mod 10) with d by (Z.div_mod_to_equations; lia).
  destruct (Z.leb_spec 1 m), (Z.leb_spec m 12), (Z.leb_spec 1 d),
    (Z.leb_spec d (daysInMonth y (m - 1))); try lia. done.
Qed.

Lemma exampleDate_parses (w : world) :
  0 <= YearFromTime (now w) <= 9999 ->
  isoDate (exampleDate w) = Some (MakeDate (Day (now w)) 0).
Proof.
  intros Hy. rewrite (exampleDate_eq w Hy).
  destruct (civil_spec (Day (now w))) as (Hday & Hm & Hd).
  fold (YearFromTime (now w)) (MonthFromTime (now w)) (DateFromTime (now w)) in Hday, Hm, Hd.
  rewrite isoDate_digits; [| done | lia |].
  - replace (MonthFromTime (now w) + 1 - 1) with (MonthFromTime (now w)) by lia.
    by rewrite Hday.
  - by replace (MonthFromTime (now w) + 1 - 1) with (MonthFromTime (now w)) by lia.
Qed.

(** X15. In the years 0 to 9999 the example date that [main] prints is
    accepted by the date pattern, and [new Date] reads it as the UTC midnight
    of the current UTC day. *)
Theorem exampleDate_round_trip (w : world) :
  0 <= YearFromTime (now w) <= 9999 ->
  datePattern (exampleDate w) = true /\
  newDate w (exampleDate w) = Some (Day (now w) * msPerDay).
Proof.
  intros Hy. pose proof (exampleDate_parses w Hy) as Hiso.
  destruct (isoDate_legal _ _ Hiso) as [Hpat Hclip]. split; [done|].
  unfold newDate, Date_parse, TimeClip. rewrite Hiso.
  destruct (Z.gtb_spec (Z.abs (MakeDate (Day (now w)) 0)) 8640000000000000); [lia|].
  unfold MakeDate. by rewrite Z.add_0_r.
Qed.

Lemma exampleDate_round_trip_witness :
  datePattern (exampleDate (utc sampleDoc)) = true /\
  newDate (utc sampleDoc) (exampleDate (utc sampleDoc)) =
    Some (Day (now (utc sampleDoc)) * msPerDay).
Proof. apply exampleDate_round_trip. by vm_compute. Defined.

(** X16. On a machine at UTC, in the years 0 to 9999, a readable file whose
    date is the example that [main] prints gets no date error at all. *)
Theorem example_date_passes_at_utc (content v : jsstring) (t : Z) :
  let w := fixedOffsetWorld 0 content t in
  0 <= YearFromTime t <= 9999 ->
  parseFields (frontmatterOf content) !! js "date" = Some v ->
  trim (removeQuotes v) = exampleDate w ->
  Forall (fun e => isDateIssue e = false) (errors (validateMetadata w (js "doc.mdx"))).
Proof.
  intros w Hy Hv Hex.
  rewrite (validateMetadata_readable w (js "doc.mdx") content eq_refl). cbn [errors].
  pose proof (exampleDate_parses w Hy) as Hiso. rewrite <- Hex in Hiso.
  destruct (isoDate_legal _ _ Hiso) as [_ Hclip].
  rewrite (dateIssues_legal w _ v _ Hv Hiso).
  assert (dateGt (Some (MakeDate (Day (now w)) 0)) (setHours0 w (now w)) = false) as ->.
  { unfold setHours0, UTC, LocalTime, TimeClip. simpl. rewrite !Z.add_0_r, Z.sub_0_r.
    unfold MakeDate in *. simpl in Hclip. rewrite Z.add_0_r in *.
    destruct (Z.gtb_spec (Z.abs (Day t * msPerDay)) 8640000000000000); [lia|].
    simpl. rewrite Z.gtb_ltb. apply Z.ltb_irrefl. }
  simpl. eapply Forall_impl; [apply titleIssues_class|]. simpl. intros e He.
  destruct (isDateIssue e) eqn:Hd; [|done]. by destruct (date_title_disjoint e).
Qed.

Lemma example_date_passes_at_utc_witness :
  Forall (fun e => isDateIssue e = false)
    (errors (validateMetadata (fixedOffsetWorld 0 sampleDoc sampleNow) (js "doc.mdx"))).
Proof.
  apply (example_date_passes_at_utc sampleDoc (js "2026-11-02") sampleNow); by vm_compute.
Defined.

(** ** The loop of main *)

Lemma checkFile_tally h st file :
  ending (checkFile h st file) =
    Return {| invalidFiles := invalidFiles st ++ invalidEntries (files h) [file];
              warningFiles := warningFiles st ++ warningEntries (files h) [file];
              allValid := allValid st && passes (files h) file |}.
Proof.
  unfold checkFile, passes, invalidEntries, warningEntries. cbn [flat_map].
  destruct st as [inv war ok].
  destruct (errors (validateMetadata (files h) file)) as [|e es];
    destruct (warnings (validateMetadata (files h) file)) as [|x xs];
    cbn; by rewrite ?app_nil_r, ?andb_true_r, ?andb_false_r.
Qed.

Lemma checkFiles_tally_from h changed : forall st,
  ending (checkFiles h changed st) =
    Return {| invalidFiles := invalidFiles st ++ invalidEntries (files h) changed;
              warningFiles := warningFiles st ++ warningEntries (files h) changed;
              allValid := allValid st && forallb (passes (files h)) changed |}.
Proof.
  induction changed as [|f changed IH]; intros st.
  - destruct st. cbn. by rewrite !app_nil_r, andb_true_r.
  - cbn [checkFiles]. rewrite ending_bind, checkFile_tally, IH. cbn [invalidFiles warningFiles allValid].
    change (f :: changed) with ([f] ++ changed).
    unfold invalidEntries, warningEntries. rewrite !flat_map_app, !app_assoc.
    cbn [forallb app]. by rewrite andb_assoc.
Qed.

Lemma invalidEntries_nil w changed :
  invalidEntries w changed = [] <-> forallb (passes w) changed = true.
Proof.
  unfold invalidEntries, passes. induction changed as [|f changed IH]; simpl; [done|].
  destruct (errors (validateMetadata w f)); simpl; [exact IH|]. split; done.
Qed.

(** X17. The loop of [main] never ends the process; after it,
    [invalidFiles] holds the changed files that have errors, each once with
    its errors and in the order of the list, [warningFiles] the same for
    warnings, and [allValid] is true exactly when [invalidFiles] is empty. *)
Theorem checkFiles_tally (h : host) (changed : list jsstring) :
  exists st,
    ending (checkFiles h changed tallyStart) = Return st /\
    invalidFiles st = invalidEntries (files h) changed /\
    warningFiles st = warningEntries (files h) changed /\
    (allValid st = true <-> invalidFiles st = []).
Proof.
  eexists. split; [apply checkFiles_tally_from|]. cbn.
  repeat split; try done; by apply invalidEntries_nil.
Qed.

(** ** Lines that are fields, lines that are delimiters *)

(** X18. A line is a field only if it starts with a word character: the key
    is the whole run of word characters at its start, and a colon follows
    it at once.  Indented lines, and keys with a hyphen or a space, are not
    fields. *)
Theorem fieldPattern_key (line key value : jsstring) :
  fieldPattern line = Some (key, value) ->
  key = takeWhile isWord line /\
  (exists c rest, line = c :: rest /\ isWord c = true) /\
  exists rest, skipWhile isWord line = ch ":" :: rest.
Proof.
  rewrite fieldPattern_unfold.
  pose proof (takeWhile_skipWhile isWord line) as Hl.
  pose proof (takeWhile_all isWord line) as Hw.
  destruct (takeWhile isWord line) as [|c k]; [done|].
  destruct (skipWhile isWord line) as [|c' rest]; [done|].
  destruct (c' =? ch ":")%N eqn:E; [|done]. apply N.eqb_eq in E as ->.
  simpl. destruct (forallb isDot (skipWhile isWhiteSpace rest)); [|done].
  intros [= <- <-]. repeat split; [|by exists rest].
  exists c, (k ++ ch ":" :: rest). split; [done|].
  simpl in Hw. by apply andb_true_iff in Hw as [Hc _].
Qed.

Lemma fieldPattern_key_witness :
  js "title" = takeWhile isWord (js "title: Notes") /\
  (exists c rest, js "title: Notes" = c :: rest /\ isWord c = true) /\
  exists rest, skipWhile isWord (js "title: Notes") = ch ":" :: rest.
Proof. apply (fieldPattern_key (js "title: Notes") (js "title") (js "Notes")). reflexivity. Defined.

Lemma trimEnd_app_ws (x b : jsstring) c :
  isWhiteSpace c = false -> forallb isWhiteSpace b = true ->
  trimEnd (x ++ c :: b) = x ++ [c].
Proof.
  intros Hc Hb. unfold trimEnd.
  rewrite rev_app_distr. simpl. rewrite <- app_assoc. simpl.
  destruct (takeWhile_app_stop isWhiteSpace (rev b) (c :: rev x)) as [_ ->].
  - by apply forallb_rev.
  - simpl. by rewrite Hc.
  - simpl. by rewrite rev_involutive.
Qed.

(** X19. A line is a delimiter exactly when it is three hyphens with white
    space, and nothing else, before and after them. *)
Theorem isDelimiter_shape (line : jsstring) :
  isDelimiter line = true <->
  exists a b, line = a ++ js "---" ++ b /\
    forallb isWhiteSpace a = true /\ forallb isWhiteSpace b = true.
Proof.
  unfold isDelimiter. rewrite strEq_spec. split.
  - intros Ht. unfold trim in Ht.
    destruct (trimEnd_prefix (trimStart line)) as (b & Hb & Hbw).
    exists (takeWhile isWhiteSpace line), b. rewrite Ht in Hb.
    repeat split; [|apply takeWhile_all|done].
    rewrite <- Hb. unfold trimStart. by rewrite takeWhile_skipWhile.
  - intros (a & b & -> & Ha & Hb). unfold trim, trimStart.
    destruct (takeWhile_app_stop isWhiteSpace a (js "---" ++ b) Ha eq_refl) as [_ ->].
    apply (trimEnd_app_ws (js "--") b (ch "-")); done.
Qed.
